(** * marathon-trainer: the client-side session, guard and page logic

    A shallow embedding of the TypeScript front end of the marathon
    trainer.  The repository carries two parallel front-end trees:

    - [frontend/] : [fetchApi] (server-set cookie, [ApiError]), the
      [useAuth] hook / [AuthProvider] over an [AuthState] record, the
      dashboard that selects the week inside [fetchData], the onboarding
      form with separate hour and minute fields;
    - [frontend/src/] : the [ApiClient] class (bearer token kept in the
      [access_token] cookie), the [AuthContext] provider with
      [refreshUser], the dashboard's [getCurrentWeek], the plan page's
      [isCurrentWeek], the onboarding form that validates its input, and
      [lib/utils.ts].

    Each tree is embedded in a module of its own ([Frontend],
    [FrontendSrc]); what both share (JavaScript values, the effect
    language, the scheduler) comes first. *)

From Stdlib Require Import ZArith Ascii String Decimal DecimalString DecimalZ Lia.
From stdpp Require Import gmap strings list.

Local Open Scope Z_scope.

(* ================================================================== *)
(** * JavaScript values used by the pages *)
(* ================================================================== *)

(** ** Numbers

    A JavaScript number is an IEEE 754 double: [NaN], an infinity, or a
    finite value [m * 2^e] with a 53-bit mantissa.  A finite double is
    kept in lowest terms: [Num z] is the integer [z], and [Frac m e],
    with [m] odd and [e < 0], is [m * 2^e].  Every operation computes
    the exact rational result and rounds it to the nearest double, ties
    to the even mantissa, as the hardware does.  (Negative zero is
    identified with zero: the pages never divide by a variable and never
    print or compare the sign of a zero.) *)
Inductive number : Type :=
| NaN
| Infinity (negative : bool)
| Num (z : Z)
| Frac (m e : Z).

#[global] Instance number_eq_dec : EqDecision number.
Proof. solve_decision. Defined.

(** [m * 2^e] for [e < 0] with the factors of two cancelled, in at most
    [fuel] steps. *)
Fixpoint lowest_terms (fuel : nat) (m e : Z) : Z * Z :=
  match fuel with
  | O => (m, e)
  | S fuel' =>
      if (e <? 0) && Z.even m then lowest_terms fuel' (m / 2) (e + 1) else (m, e)
  end.

(** The number [m * 2^e]. *)
Definition dyadic (m e : Z) : number :=
  if m =? 0 then Num 0
  else if 0 <=? e then Num (m * 2 ^ e)
  else let '(m', e') := lowest_terms (Z.to_nat (- e)) m e in
       if 0 <=? e' then Num m' else Frac m' e'.

(** The double nearest to [n / d], for [n] and [d] positive, as a
    mantissa below [2^53] and an exponent, which is at least [-1074]
    (the subnormal doubles); ties go to the even mantissa. *)
Definition nearest (n d : Z) : Z * Z :=
  let e0 := Z.log2 n - Z.log2 d - 53 in
  let quot e := if 0 <=? e then n / (d * 2 ^ e) else (n * 2 ^ (- e)) / d in
  let e1 := if quot e0 <? 2 ^ 53 then e0 else e0 + 1 in
  let e := Z.max e1 (-1074) in
  let num := if 0 <=? e then n else n * 2 ^ (- e) in
  let den := if 0 <=? e then d * 2 ^ e else d in
  let q := num / den in
  let r := num mod den in
  let up := (den <? 2 * r) || ((den =? 2 * r) && Z.odd q) in
  (if up then q + 1 else q, e).

(** The rational [n / d] ([d] positive) rounded to a double.  An
    integer of at most 53 bits is a double as it stands. *)
Definition round_rat (n d : Z) : number :=
  if (d =? 1) && (Z.abs n <=? 2 ^ 53) then Num n
  else if n =? 0 then Num 0
  else let '(m, e) := nearest (Z.abs n) d in
       if (0 <=? e) && (2 ^ 1024 <=? m * 2 ^ e) then Infinity (n <? 0)
       else dyadic (Z.sgn n * m) e.

(** A finite number as a fraction with a positive denominator. *)
Definition fraction (a : number) : option (Z * Z) :=
  match a with
  | Num z => Some (z, 1)
  | Frac m e => Some (m, 2 ^ (- e))
  | _ => None
  end.

(** [-a] *)
Definition num_neg (a : number) : number :=
  match a with
  | NaN => NaN
  | Infinity s => Infinity (negb s)
  | Num z => Num (- z)
  | Frac m e => Frac (- m) e
  end.

(** [a + b] *)
Definition num_add (a b : number) : number :=
  match a, b with
  | NaN, _ | _, NaN => NaN
  | Infinity s, Infinity s' => if Bool.eqb s s' then Infinity s else NaN
  | Infinity s, _ | _, Infinity s => Infinity s
  | _, _ =>
      match fraction a, fraction b with
      | Some (n1, d1), Some (n2, d2) => round_rat (n1 * d2 + n2 * d1) (d1 * d2)
      | _, _ => NaN
      end
  end.

(** [a - b] *)
Definition num_sub (a b : number) : number := num_add a (num_neg b).

Definition is_zero (a : number) : bool :=
  match a with Num 0 => true | _ => false end.

Definition is_negative (a : number) : bool :=
  match a with
  | Infinity s => s
  | Num z => z <? 0
  | Frac m _ => m <? 0
  | NaN => false
  end.

(** [a * b] *)
Definition num_mul (a b : number) : number :=
  match a, b with
  | NaN, _ | _, NaN => NaN
  | Infinity s, c | c, Infinity s =>
      if is_zero c then NaN else Infinity (xorb s (is_negative c))
  | _, _ =>
      match fraction a, fraction b with
      | Some (n1, d1), Some (n2, d2) => round_rat (n1 * n2) (d1 * d2)
      | _, _ => NaN
      end
  end.

(** [a / d] for an integer literal [d] other than zero. *)
Definition num_div (a : number) (d : Z) : number :=
  match a with
  | NaN => NaN
  | Infinity s => Infinity (xorb s (d <? 0))
  | _ =>
      match fraction a with
      | Some (n1, d1) => round_rat (Z.sgn d * n1) (d1 * Z.abs d)
      | None => NaN
      end
  end.

(** [a % d] for an integer literal [d] other than zero: the remainder
    takes the sign of the dividend, and is exact. *)
Definition num_rem (a : number) (d : Z) : number :=
  match a with
  | Num x => Num (Z.rem x d)
  | Frac m e => dyadic (Z.rem m (d * 2 ^ (- e))) e
  | _ => NaN
  end.

(** [Math.floor(a)] *)
Definition Math_floor (a : number) : number :=
  match a with
  | Frac m e => Num (m / 2 ^ (- e))
  | _ => a
  end.

(** [Math.ceil(a)] *)
Definition Math_ceil (a : number) : number :=
  match a with
  | Frac m e => Num (- ((- m) / 2 ^ (- e)))
  | _ => a
  end.

(** [Math.round(a)]: halves go towards +infinity. *)
Definition Math_round (a : number) : number :=
  match a with
  | Frac m e => Num ((2 * m + 2 ^ (- e)) / 2 ^ (1 - e))
  | _ => a
  end.

(** [Math.floor(a / d)], [Math.round(a / d)] and [Math.ceil(a / d)]: the
    quotient is rounded to a double first. *)
Definition Math_floor_div (a : number) (d : Z) : number := Math_floor (num_div a d).
Definition Math_round_div (a : number) (d : Z) : number := Math_round (num_div a d).
Definition Math_ceil_div (a : number) (d : Z) : number := Math_ceil (num_div a d).

(** Relational operators: every comparison with [NaN] is false. *)
Definition num_ltb (a b : number) : bool :=
  match a, b with
  | NaN, _ | _, NaN => false
  | Num x, Num y => x <? y
  | Infinity s, Infinity s' => s && negb s'
  | Infinity s, _ => s
  | _, Infinity s => negb s
  | _, _ =>
      match fraction a, fraction b with
      | Some (n1, d1), Some (n2, d2) => n1 * d2 <? n2 * d1
      | _, _ => false
      end
  end.

Definition num_eqb (a b : number) : bool :=
  match a, b with
  | NaN, _ | _, NaN => false
  | _, _ => bool_decide (a = b)
  end.

Definition num_leb (a b : number) : bool := num_ltb a b || num_eqb a b.
Definition num_gtb (a b : number) : bool := num_ltb b a.
Definition num_geb (a b : number) : bool := num_leb b a.

(** ** Strings

    A string is a sequence of code units below 256. *)

(** *** Numbers as strings *)

(** [p / q < 10^n] *)
Definition below_pow10 (p q n : Z) : bool :=
  if 0 <=? n then p <? q * 10 ^ n else p * 10 ^ (- n) <? q.

(** The least [n] with [p / q < 10^n], searched downwards from [n]. *)
Fixpoint magnitude (fuel : nat) (p q n : Z) : Z :=
  match fuel with
  | O => n
  | S fuel' => if below_pow10 p q (n - 1) then magnitude fuel' p q (n - 1) else n
  end.

(** The decimal [s * 10^j] is read back as the number [x]. *)
Definition denotes (x : number) (s j : Z) : bool :=
  bool_decide ((if 0 <=? j then round_rat (s * 10 ^ j) 1
                else round_rat s (10 ^ (- j))) = x).

(** The digits [s], their count [k] and the position [n] of the decimal
    point that [Number::toString] prints for the positive number [x],
    which is [p / q]: the fewest digits that are read back as [x] and,
    among those, the closest to it. *)
Fixpoint shortest (fuel : nat) (x : number) (p q n k : Z) : Z * Z * Z :=
  let j := k - n in
  let a := if 0 <=? j then p * 10 ^ j else p in
  let b := if 0 <=? j then q else q * 10 ^ (- j) in
  let lo := a / b in
  let hi := lo + 1 in
  let lo_ok := (10 ^ (k - 1) <=? lo) && denotes x lo (n - k) in
  let hi_ok := (hi <? 10 ^ k) && denotes x hi (n - k) in
  let closer_lo := (2 * (a - lo * b) <? b) || ((2 * (a - lo * b) =? b) && Z.even lo) in
  if (k =? 1) && (hi =? 10) && denotes x 1 n && negb lo_ok then (1, 1, n + 1)
  else if lo_ok && (negb hi_ok || closer_lo) then (lo, k, n)
  else if hi_ok then (hi, k, n)
  else match fuel with
       | O => (lo, k, n)
       | S fuel' => shortest fuel' x p q n (k + 1)
       end.

Fixpoint zeros (n : nat) : string :=
  match n with
  | O => EmptyString
  | S n' => String "0" (zeros n')
  end.

(** The decimal digits of a non-negative integer. *)
Definition decimal (z : Z) : string := NilZero.string_of_int (Z.to_int z).

(** [Number::toString] of a positive number [x = p / q]: plain digits
    up to [10^21], a decimal point down to [10^-6], the exponent form
    beyond. *)
Definition positive_to_string (x : number) (p q : Z) : string :=
  let n0 := magnitude 640 p q 310 in
  let '(s, k, n) := shortest 16 x p q n0 1 in
  let digits := decimal s in
  if (k <=? n) && (n <=? 21) then digits +:+ zeros (Z.to_nat (n - k))
  else if (0 <? n) && (n <=? 21) then
    substring 0 (Z.to_nat n) digits +:+ "."
    +:+ substring (Z.to_nat n) (Z.to_nat (k - n)) digits
  else if (-6 <? n) && (n <=? 0) then "0." +:+ zeros (Z.to_nat (- n)) +:+ digits
  else
    let e := n - 1 in
    let exponent := (if e <? 0 then "e-" else "e+") +:+ decimal (Z.abs e) in
    if k =? 1 then digits +:+ exponent
    else substring 0 1 digits +:+ "." +:+ substring 1 (Z.to_nat (k - 1)) digits
         +:+ exponent.

(** [n.toString()] / template-literal interpolation of a number.  An
    integer of at most 53 bits prints as its digits. *)
Definition toString (n : number) : string :=
  match n with
  | NaN => "NaN"
  | Infinity s => if s then "-Infinity" else "Infinity"
  | Num z =>
      if Z.abs z <=? 2 ^ 53 then NilZero.string_of_int (Z.to_int z)
      else (if z <? 0 then "-" else "")
           +:+ positive_to_string (Num (Z.abs z)) (Z.abs z) 1
  | Frac m e =>
      (if m <? 0 then "-" else "")
      +:+ positive_to_string (Frac (Z.abs m) e) (Z.abs m) (2 ^ (- e))
  end.

(** *** Strings as numbers *)

(** The white space [Number] and [parseInt] skip: tab, line feed,
    vertical tab, form feed, carriage return, space and no-break
    space. *)
Definition white_space (c : ascii) : bool :=
  let n := N_of_ascii c in
  ((9 <=? n) && (n <=? 13) || (n =? 32) || (n =? 160))%N.

Fixpoint trimStart (s : string) : string :=
  match s with
  | String c s' => if white_space c then trimStart s' else s
  | EmptyString => EmptyString
  end.

Fixpoint trimEnd (s : string) : string :=
  match s with
  | EmptyString => EmptyString
  | String c s' =>
      match trimEnd s' with
      | EmptyString => if white_space c then EmptyString else String c EmptyString
      | t => String c t
      end
  end.

Definition trim (s : string) : string := trimEnd (trimStart s).

(** The value of a character as a digit: [0-9], [a-z], [A-Z]. *)
Definition digit_of (c : ascii) : option Z :=
  let n := Z.of_N (N_of_ascii c) in
  if (48 <=? n) && (n <=? 57) then Some (n - 48)
  else if (97 <=? n) && (n <=? 122) then Some (n - 87)
  else if (65 <=? n) && (n <=? 90) then Some (n - 55)
  else None.

Definition is_digit (radix : Z) (c : ascii) : bool :=
  match digit_of c with
  | Some v => v <? radix
  | None => false
  end.

(** The integer a run of digits spells, after [acc]. *)
Fixpoint digits_value (radix acc : Z) (s : string) : Z :=
  match s with
  | EmptyString => acc
  | String c s' => digits_value radix (acc * radix + default 0 (digit_of c)) s'
  end.

(** The longest prefix whose characters satisfy [f], and the rest. *)
Fixpoint span (f : ascii -> bool) (s : string) : string * string :=
  match s with
  | String c s' =>
      if f c then let '(p, r) := span f s' in (String c p, r)
      else (EmptyString, s)
  | EmptyString => (EmptyString, EmptyString)
  end.

(** [mant * 10^scale] with its sign, as a number; [mant] has [ndigits]
    digits, and beyond the range of the doubles the power is not
    computed. *)
Definition scientific (negative_ : bool) (mant scale : Z) (ndigits : nat) : number :=
  if mant =? 0 then Num 0
  else if 400 <? scale then Infinity negative_
  else if scale + Z.of_nat ndigits <? -400 then Num 0
  else
    let m := if negative_ then - mant else mant in
    if 0 <=? scale then round_rat (m * 10 ^ scale) 1
    else round_rat m (10 ^ (- scale)).

(** An unsigned [StrDecimalLiteral]: digits with an optional fraction
    and an optional exponent, and at least one digit before the
    exponent. *)
Definition decimal_literal (negative_ : bool) (s : string) : number :=
  let '(ip, r1) := span (is_digit 10) s in
  let '(fp, r2) :=
    match r1 with
    | String "."%char r => span (is_digit 10) r
    | _ => (EmptyString, r1)
    end in
  if ((String.length ip =? 0) && (String.length fp =? 0))%nat then NaN
  else
    let mant := digits_value 10 0 (ip +:+ fp) in
    let ndigits := (String.length ip + String.length fp)%nat in
    match r2 with
    | EmptyString => scientific negative_ mant (- Z.of_nat (String.length fp)) ndigits
    | String c r3 =>
        if (Ascii.eqb c "e" || Ascii.eqb c "E")%char then
          let '(eneg, r4) :=
            match r3 with
            | String "-"%char r => (true, r)
            | String "+"%char r => (false, r)
            | _ => (false, r3)
            end in
          let '(ep, r5) := span (is_digit 10) r4 in
          if (String.length ep =? 0)%nat || negb (String.eqb r5 "") then NaN
          else
            let ex := digits_value 10 0 ep in
            scientific negative_ mant
              ((if eneg then - ex else ex) - Z.of_nat (String.length fp)) ndigits
        else NaN
    end.

(** A [0x], [0o] or [0b] literal: all that follows the prefix must be
    digits of the radix, and there must be one. *)
Definition radix_literal (radix : Z) (s : string) : number :=
  match span (is_digit radix) s with
  | (EmptyString, _) => NaN
  | (p, EmptyString) => round_rat (digits_value radix 0 p) 1
  | (_, _) => NaN
  end.

(** [StringToNumber] of a trimmed string that is not a plain run of
    decimal digits. *)
Definition numeric_literal (s : string) : number :=
  match s with
  | String "0"%char (String "x"%char r) | String "0"%char (String "X"%char r) =>
      radix_literal 16 r
  | String "0"%char (String "o"%char r) | String "0"%char (String "O"%char r) =>
      radix_literal 8 r
  | String "0"%char (String "b"%char r) | String "0"%char (String "B"%char r) =>
      radix_literal 2 r
  | String "-"%char r =>
      if String.eqb r "Infinity" then Infinity true else decimal_literal true r
  | String "+"%char r =>
      if String.eqb r "Infinity" then Infinity false else decimal_literal false r
  | _ => if String.eqb s "Infinity" then Infinity false else decimal_literal false s
  end.

(** [Number(s)]: white space at both ends is dropped; the empty string
    is 0, a run of decimal digits is the double nearest to the integer
    it spells, and whatever is not a numeric literal is [NaN]. *)
Definition Number (s : string) : number :=
  match NilEmpty.uint_of_string (trim s) with
  | Some d => round_rat (Z.of_uint d) 1
  | None => numeric_literal (trim s)
  end.

(** [parseInt(s)] (no radix given): leading white space and a sign are
    skipped, [0x] selects radix 16, and the longest run of digits that
    follows is read; the rest of the string is ignored, and without a
    digit the result is [NaN]. *)
Definition parseInt (s : string) : number :=
  let t := trimStart s in
  let '(negative_, t) :=
    match t with
    | String "-"%char r => (true, r)
    | String "+"%char r => (false, r)
    | _ => (false, t)
    end in
  let '(radix, t) :=
    match t with
    | String "0"%char (String "x"%char r) | String "0"%char (String "X"%char r) =>
        (16, r)
    | _ => (10, t)
    end in
  match span (is_digit radix) t with
  | (EmptyString, _) => NaN
  | (p, _) =>
      let n := digits_value radix 0 p in
      round_rat (if negative_ then - n else n) 1
  end.

(** [n] characters taken cyclically from [pad], starting at [cur]. *)
Fixpoint pad_fill (n : nat) (pad cur : string) : string :=
  match n with
  | O => EmptyString
  | S n' =>
      match cur with
      | String c rest => String c (pad_fill n' pad rest)
      | EmptyString =>
          match pad with
          | String c rest => String c (pad_fill n' pad rest)
          | EmptyString => EmptyString
          end
      end
  end.

(** [s.padStart(targetLength, padString)]. *)
Definition padStart (targetLength : nat) (padString : string) (s : string) : string :=
  pad_fill (targetLength - String.length s) padString padString +:+ s.

(** [s.split(sep)] for a one-character separator. *)
Fixpoint split (sep : ascii) (s : string) : list string :=
  match s with
  | EmptyString => [EmptyString]
  | String c s' =>
      if Ascii.eqb c sep then EmptyString :: split sep s'
      else match split sep s' with
           | x :: xs => String c x :: xs
           | [] => [String c EmptyString]
           end
  end.

(** [c] does not occur in [s] (used to reason about [split]). *)
Fixpoint no_char (c : ascii) (s : string) : bool :=
  match s with
  | EmptyString => true
  | String a s' => negb (Ascii.eqb a c) && no_char c s'
  end.

(** ** JSON values

    What [response.json()] yields and what [JSON.stringify] is given.
    The client never validates a body against its TypeScript interface,
    so a [User], a [Profile] or a plan is whatever object the server
    sent; fields are read by name. *)
#[warnings="-register-all"] Inductive json : Type :=
| JNull
| JBool (b : bool)
| JNum (n : number)
| JStr (s : string)
| JArr (items : list json)
| JObj (fields : list (string * json)).

(** Truthiness of a value; [None] stands for [undefined]. *)
Definition truthy (v : option json) : bool :=
  match v with
  | None | Some JNull => false
  | Some (JBool b) => b
  | Some (JNum NaN) => false
  | Some (JNum (Num z)) => negb (z =? 0)
  | Some (JNum (Infinity _)) | Some (JNum (Frac _ _)) => true
  | Some (JStr s) => negb (String.eqb s "")
  | Some (JArr _) | Some (JObj _) => true
  end.

(** First binding of [k] in an association list of fields. *)
Fixpoint assoc (k : string) (fields : list (string * json)) : option json :=
  match fields with
  | [] => None
  | (k', v) :: rest => if String.eqb k k' then Some v else assoc k rest
  end.

(** [String(v)], the conversion the [Error] constructor applies to its
    message. *)
Fixpoint String_ (v : json) : string :=
  match v with
  | JNull => "null"
  | JBool true => "true"
  | JBool false => "false"
  | JNum n => toString n
  | JStr s => s
  | JObj _ => "[object Object]"
  | JArr items =>
      (fix join (l : list json) : string :=
         match l with
         | [] => ""
         | [x] => match x with JNull => "" | _ => String_ x end
         | x :: rest =>
             (match x with JNull => "" | _ => String_ x end) +:+ "," +:+ join rest
         end) items
  end.

(** ** Exceptions

    [ApiError] is the class of [frontend/lib/api.ts]; [Error] stands for
    the built-in constructors, told apart by [name] ([Error],
    [TypeError], [SyntaxError], [RangeError]). *)
Inductive exn : Type :=
| ApiError (message : string) (status : Z)
| Error (name message : string).

Definition exn_message (e : exn) : string :=
  match e with
  | ApiError m _ => m
  | Error _ m => m
  end.

Definition instanceof_ApiError (e : exn) : bool :=
  match e with
  | ApiError _ _ => true
  | Error _ _ => false
  end.

(** Every value thrown in these pages is an [Error] object. *)
Definition instanceof_Error (e : exn) : bool := true.

(** ** HTTP *)

Record RequestInit : Type := {
  method : option string;
  headers : gmap string string;
  body : option json;            (* the value given to [JSON.stringify] *)
  credentials : option string;
}.

Definition no_init : RequestInit :=
  {| method := None; headers := ∅; body := None; credentials := None |}.

Record Request : Type := { url : string; init : RequestInit }.

Record Response : Type := {
  status : Z;
  payload : option json;         (* [None]: the body is not JSON *)
}.

(** [response.ok]. *)
Definition ok (r : Response) : bool := (200 <=? status r) && (status r <=? 299).

(** How a [fetch] promise settles: rejected (network failure) or
    fulfilled with a response. *)
Definition reply : Type := exn + Response.

(** ** The runtime environment

    Built-ins and configuration the pages read but do not define.  A
    [Date] holds a time value: an integer number of milliseconds since
    the epoch, or [NaN] (an invalid date). *)
Definition MS_PER_DAY : Z := 86400000.

Class Env : Type := {
  (** [process.env.NEXT_PUBLIC_API_URL || ...] *)
  API_BASE_URL : string;
  (** the time value of [new Date(s)]; [NaN] for an invalid date *)
  Date_parse : string -> number;
  (** date-fns [parseISO] *)
  parseISO : string -> number;
  (** [d.toISOString()] of a valid date *)
  Date_toISOString : Z -> string;
  (** [LocalTZA(t, isUTC)]: the offset of local time from UTC, clock
      changes included, at the UTC instant [t] ([isUTC]) or at the local
      time [t] *)
  LocalTZA : Z -> bool -> Z;
  (** an offset is less than a day *)
  LocalTZA_range : forall t isUTC, - MS_PER_DAY < LocalTZA t isUTC < MS_PER_DAY;
}.

(** [LocalTime(t)] and [UTC(t)]. *)
Definition LocalTime {env : Env} (t : Z) : Z := t + LocalTZA t true.
Definition UTC {env : Env} (t : Z) : Z := t - LocalTZA t false.

(** [TimeClip]: a date is at most 100,000,000 days from the epoch. *)
Definition TimeClip (t : Z) : number :=
  if Z.abs t <=? 8640000000000000 then Num t else NaN.

(** Midnight of the local day that contains the instant [t]. *)
Definition local_midnight {env : Env} (t : Z) : Z :=
  UTC (LocalTime t / MS_PER_DAY * MS_PER_DAY).

(** [d.setHours(0, 0, 0, 0)]. *)
Definition setHours0 {env : Env} (d : number) : number :=
  match d with
  | Num t => TimeClip (local_midnight t)
  | _ => NaN
  end.

(** [d.setDate(d.getDate() + n)]: the same local time of day, [n] days
    of the local calendar later; across a clock change that is not [n]
    times 24 hours. *)
Definition addDays {env : Env} (n : Z) (d : number) : number :=
  match d with
  | Num t => TimeClip (UTC (LocalTime t + n * MS_PER_DAY))
  | _ => NaN
  end.

(** [d.getDay()] of the instant [t]: the day of the local week, Sunday
    being 0 (1970-01-01 was a Thursday). *)
Definition getDay {env : Env} (t : Z) : Z :=
  (LocalTime t / MS_PER_DAY + 4) mod 7.

(** ** A concrete environment

    Dates in the date-only ISO form [YYYY-MM-DD], which is what an
    [<input type="date">] holds; [new Date] reads it as midnight UTC and
    [parseISO] as midnight local time. *)

(** Days since 1970-01-01 of a civil date (proleptic Gregorian). *)
Definition days_from_civil (y m d : Z) : Z :=
  let y' := if m <=? 2 then y - 1 else y in
  let era := y' / 400 in
  let yoe := y' - era * 400 in
  let doy := (153 * (if 2 <? m then m - 3 else m + 9) + 2) / 5 + d - 1 in
  let doe := yoe * 365 + yoe / 4 - yoe / 100 + doy in
  era * 146097 + doe - 719468.

(** The civil date of a day number. *)
Definition civil_from_days (z : Z) : Z * Z * Z :=
  let z' := z + 719468 in
  let era := z' / 146097 in
  let doe := z' - era * 146097 in
  let yoe := (doe - doe / 1460 + doe / 36524 - doe / 146096) / 365 in
  let doy := doe - (365 * yoe + yoe / 4 - yoe / 100) in
  let mp := (5 * doy + 2) / 153 in
  let d := doy - (153 * mp + 2) / 5 + 1 in
  let m := if mp <? 10 then mp + 3 else mp - 9 in
  (yoe + era * 400 + (if m <=? 2 then 1 else 0), m, d).

(** A field of a date: decimal digits only. *)
Definition date_field (s : string) : option Z :=
  if forallb (is_digit 10) (list_ascii_of_string s)
  then Some (digits_value 10 0 s) else None.

(** The fields of [YYYY-MM-DD]: a year, a month from 01 to 12 and a
    day from 01 to 31. *)
Definition iso_fields (s : string) : option (Z * Z * Z) :=
  match split "-" s with
  | [ys; ms; ds] =>
      if (String.length ys =? 4)%nat && (String.length ms =? 2)%nat
         && (String.length ds =? 2)%nat
      then match date_field ys, date_field ms, date_field ds with
           | Some y, Some m, Some d =>
               if (1 <=? m) && (m <=? 12) && (1 <=? d) && (d <=? 31)
               then Some (y, m, d) else None
           | _, _, _ => None
           end
      else None
  | _ => None
  end.

(** [new Date("YYYY-MM-DD")], as V8 reads it: midnight UTC of that day;
    a day past the end of its month runs into the next month. *)
Definition iso_date_utc (s : string) : number :=
  match iso_fields s with
  | Some (y, m, d) => Num ((days_from_civil y m 1 + d - 1) * MS_PER_DAY)
  | None => NaN
  end.

(** The day number of [YYYY-MM-DD] for date-fns, which accepts days of
    the calendar only. *)
Definition iso_day (s : string) : option Z :=
  match iso_fields s with
  | Some (y, m, d) =>
      let n := days_from_civil y m d in
      if decide (civil_from_days n = (y, m, d)) then Some n else None
  | None => None
  end.

(** [YYYY-MM-DDTHH:mm:ss.sssZ] for the years 0 to 9999. *)
Definition iso_string (t : Z) : string :=
  let '(y, m, d) := civil_from_days (t / MS_PER_DAY) in
  let ms := t mod MS_PER_DAY in
  let two (z : Z) := padStart 2 "0" (toString (Num z)) in
  padStart 4 "0" (toString (Num y)) +:+ "-" +:+ two m +:+ "-" +:+ two d +:+ "T"
  +:+ two (ms / 3600000) +:+ ":" +:+ two (ms / 60000 mod 60) +:+ ":"
  +:+ two (ms / 1000 mod 60) +:+ "."
  +:+ padStart 3 "0" (toString (Num (ms mod 1000))) +:+ "Z".

(** A browser talking to [base] whose local time is [tza] away from
    UTC. *)
Definition browser_in (base : string) (tza : Z -> bool -> Z)
    (tza_range : forall t isUTC, - MS_PER_DAY < tza t isUTC < MS_PER_DAY) : Env :=
  {| API_BASE_URL := base;
     Date_parse := iso_date_utc;
     parseISO := fun s =>
       match iso_day s with
       | Some n => Num (n * MS_PER_DAY - tza (n * MS_PER_DAY) false)
       | None => NaN
       end;
     Date_toISOString := iso_string;
     LocalTZA := tza;
     LocalTZA_range := tza_range |}.

(** A browser in a zone without clock changes, [offset] milliseconds
    east of UTC. *)
Definition browser (base : string) (offset : Z)
    (offset_range : - MS_PER_DAY < offset < MS_PER_DAY) : Env :=
  browser_in base (fun _ _ => offset) (fun _ _ => offset_range).

(** Europe/London in 2024: British Summer Time, one hour ahead, from
    31 March 01:00 UTC to 27 October 01:00 UTC.  Of a local time that
    the clock shows twice, or not at all, the reading before the change
    is taken. *)
Definition london_2024 (t : Z) (isUTC : bool) : Z :=
  if isUTC then
    if (1711846800000 <=? t) && (t <? 1729990800000) then 3600000 else 0
  else
    if (1711850400000 <=? t) && (t <? 1729994400000) then 3600000 else 0.

(* ================================================================== *)
(** * Effects *)
(* ================================================================== *)

Section Effects.
(** [S] is the React state the code at hand can write. *)
Context {S : Type}.

(** Effects that return nothing to the caller. *)
Inductive action : Type :=
| CookiesSet (name value : string) (expires : Z)
| CookiesRemove (name : string)
| SetLocationHref (href : string)      (* [window.location.href = href] *)
| RouterPush (href : string)
| ConsoleError (label : string) (e : exn)
| SetState (f : S -> S).

(** An (async) function body: a tree of effects, suspended at every
    [await fetch(...)]. *)
Inductive Prog (A : Type) : Type :=
| Ret (a : A)
| Throw (e : exn)
| Act (a : action) (k : Prog A)
| CookiesGet (name : string) (k : option string -> Prog A)
| TypeofWindow (k : bool -> Prog A)    (* [typeof window !== 'undefined'] *)
| NewDate (k : Z -> Prog A)            (* [new Date()] *)
| Await (req : Request) (k : reply -> Prog A)
| Fork (child : Prog unit) (k : Prog A).   (* an async call, not awaited *)

Global Arguments Ret {A} a.
Global Arguments Throw {A} e.
Global Arguments Act {A} a k.
Global Arguments CookiesGet {A} name k.
Global Arguments TypeofWindow {A} k.
Global Arguments NewDate {A} k.
Global Arguments Await {A} req k.
Global Arguments Fork {A} child k.

Fixpoint bind {A B : Type} (p : Prog A) (f : A -> Prog B) : Prog B :=
  match p with
  | Ret a => f a
  | Throw e => Throw e
  | Act a k => Act a (bind k f)
  | CookiesGet n k => CookiesGet n (fun v => bind (k v) f)
  | TypeofWindow k => TypeofWindow (fun b => bind (k b) f)
  | NewDate k => NewDate (fun t => bind (k t) f)
  | Await req k => Await req (fun r => bind (k r) f)
  | Fork c k => Fork c (bind k f)
  end.

(** [try { p } catch (err) { h err }]. *)
Fixpoint try_catch {A : Type} (p : Prog A) (h : exn -> Prog A) : Prog A :=
  match p with
  | Ret a => Ret a
  | Throw e => h e
  | Act a k => Act a (try_catch k h)
  | CookiesGet n k => CookiesGet n (fun v => try_catch (k v) h)
  | TypeofWindow k => TypeofWindow (fun b => try_catch (k b) h)
  | NewDate k => NewDate (fun t => try_catch (k t) h)
  | Await req k => Await req (fun r => try_catch (k r) h)
  | Fork c k => Fork c (try_catch k h)
  end.

(** [try { p } finally { f }]. *)
Fixpoint finally {A : Type} (p : Prog A) (f : Prog unit) : Prog A :=
  match p with
  | Ret a => bind f (fun _ => Ret a)
  | Throw e => bind f (fun _ => Throw e)
  | Act a k => Act a (finally k f)
  | CookiesGet n k => CookiesGet n (fun v => finally (k v) f)
  | TypeofWindow k => TypeofWindow (fun b => finally (k b) f)
  | NewDate k => NewDate (fun t => finally (k t) f)
  | Await req k => Await req (fun r => finally (k r) f)
  | Fork c k => Fork c (finally k f)
  end.

Definition do_ (a : action) : Prog unit := Act a (Ret tt).

(** [await fetch(url, init)]: a rejected promise throws at the
    [await]. *)
Definition fetch (u : string) (i : RequestInit) : Prog Response :=
  Await {| url := u; init := i |}
        (fun r => match r with inl e => Throw e | inr resp => Ret resp end).

(** [await response.json()]. *)
Definition response_json (r : Response) : Prog json :=
  match payload r with
  | Some v => Ret v
  | None => Throw (Error "SyntaxError" "Unexpected token in JSON")
  end.

(** ** The world a handler runs in *)

(** What an observer of the page can see happen, in order. *)
Inductive event : Type :=
| EFetch (req : Request)
| ECookieSet (name value : string) (expires : Z)
| ECookieRemove (name : string)
| ENavigate (href : string)            (* full-page navigation *)
| EPush (href : string)                (* client-side route change *)
| EConsoleError (label : string) (e : exn)
| ESetState (s : S).                   (* the state after the update *)

Record World : Type := {
  cookies : gmap string string;        (* the js-cookie store *)
  window : bool;                       (* running in a browser *)
  now : Z;                             (* the clock *)
  state : S;
  log : list event;
}.

Definition emit (e : event) (w : World) : World :=
  {| cookies := cookies w; window := window w; now := now w;
     state := state w; log := log w ++ [e] |}.

(** [w] after the events [es], nothing else changed. *)
Definition logged (es : list event) (w : World) : World :=
  {| cookies := cookies w; window := window w; now := now w;
     state := state w; log := log w ++ es |}.

Definition perform (a : action) (w : World) : World :=
  match a with
  | CookiesSet n v ex =>
      emit (ECookieSet n v ex)
           {| cookies := <[n := v]> (cookies w); window := window w;
              now := now w; state := state w; log := log w |}
  | CookiesRemove n =>
      emit (ECookieRemove n)
           {| cookies := delete n (cookies w); window := window w;
              now := now w; state := state w; log := log w |}
  | SetLocationHref h => emit (ENavigate h) w
  | RouterPush h => emit (EPush h) w
  | ConsoleError l e => emit (EConsoleError l e) w
  | SetState f =>
      emit (ESetState (f (state w)))
           {| cookies := cookies w; window := window w; now := now w;
              state := f (state w); log := log w |}
  end.

(** The requests sent so far, oldest first. *)
Fixpoint fetches (l : list event) : list Request :=
  match l with
  | [] => []
  | EFetch r :: l' => r :: fetches l'
  | _ :: l' => fetches l'
  end.

(** The full-page navigations so far. *)
Fixpoint navigations (l : list event) : list string :=
  match l with
  | [] => []
  | ENavigate h :: l' => h :: navigations l'
  | _ :: l' => navigations l'
  end.

(** The states written so far. *)
Fixpoint writes (l : list event) : list S :=
  match l with
  | [] => []
  | ESetState s :: l' => s :: writes l'
  | _ :: l' => writes l'
  end.

(** ** Scheduling

    A handler runs until it returns, throws, or reaches an
    [await fetch(...)]; there it is parked until its reply is
    delivered.  Several handlers may be parked at once and their
    replies may arrive in any order. *)
Record Task : Type := { awaiting : Request; resume : reply -> Prog unit }.

Record Sched : Type := { world : World; parked : list Task }.

(** Start [p] and let it run to its first [await] (or its end). *)
Fixpoint spawn (p : Prog unit) (w : World) (q : list Task) : Sched :=
  match p with
  | Ret _ => {| world := w; parked := q |}
  | Throw e =>
      (* an unhandled rejection: reported, nothing else happens *)
      {| world := emit (EConsoleError "Uncaught (in promise)" e) w; parked := q |}
  | Act a k => spawn k (perform a w) q
  | CookiesGet n k => spawn (k (cookies w !! n)) w q
  | TypeofWindow k => spawn (k (window w)) w q
  | NewDate k => spawn (k (now w)) w q
  | Await req k =>
      {| world := emit (EFetch req) w;
         parked := q ++ [{| awaiting := req; resume := k |}] |}
  | Fork c k => let σ := spawn c w q in spawn k (world σ) (parked σ)
  end.

(** A call of an async function from an event handler or an effect. *)
Definition call (p : Prog unit) (σ : Sched) : Sched :=
  spawn p (world σ) (parked σ).

(** The [i]-th parked request settles with [r]. *)
Definition settle (i : nat) (r : reply) (σ : Sched) : Sched :=
  match parked σ !! i with
  | Some t => spawn (resume t r) (world σ) (delete i (parked σ))
  | None => σ
  end.

(** Run one handler to completion: [net n] is how the [n]-th request
    of the page settles, and each of the handler's own awaits is
    answered at once.  Calls it did not await stay parked. *)
Fixpoint run {A : Type} (net : nat -> reply) (p : Prog A) (σ : Sched)
  : Sched * (exn + A) :=
  match p with
  | Ret a => (σ, inr a)
  | Throw e => (σ, inl e)
  | Act a k => run net k {| world := perform a (world σ); parked := parked σ |}
  | CookiesGet n k => run net (k (cookies (world σ) !! n)) σ
  | TypeofWindow k => run net (k (window (world σ)))  σ
  | NewDate k => run net (k (now (world σ))) σ
  | Await req k =>
      run net (k (net (length (fetches (log (world σ))))))
          {| world := emit (EFetch req) (world σ); parked := parked σ |}
  | Fork c k => run net k (spawn c (world σ) (parked σ))
  end.

End Effects.

Global Arguments action S : clear implicits.
Global Arguments Prog S A : clear implicits.
Global Arguments event S : clear implicits.
Global Arguments World S : clear implicits.
Global Arguments Task S : clear implicits.
Global Arguments Sched S : clear implicits.

#[global] Instance Prog_ret {S} : MRet (Prog S) := fun _ a => Ret a.
#[global] Instance Prog_bind {S} : MBind (Prog S) := fun _ _ f p => bind p f.

(** ** Code of one component used inside another

    A function obtained from a context ([refresh], [refreshUser]) writes
    the provider's state; called from a page, it acts on the provider's
    part [get s] of the page's combined state [s]. *)
Definition zoom_action {S T : Type} (get : S -> T) (put : T -> S -> S)
    (a : action T) : action S :=
  match a with
  | CookiesSet n v ex => CookiesSet n v ex
  | CookiesRemove n => CookiesRemove n
  | SetLocationHref h => SetLocationHref h
  | RouterPush h => RouterPush h
  | ConsoleError l e => ConsoleError l e
  | SetState f => SetState (fun s => put (f (get s)) s)
  end.

Fixpoint zoom {S T A : Type} (get : S -> T) (put : T -> S -> S)
    (p : Prog T A) : Prog S A :=
  match p with
  | Ret a => Ret a
  | Throw e => Throw e
  | Act a k => Act (zoom_action get put a) (zoom get put k)
  | CookiesGet n k => CookiesGet n (fun v => zoom get put (k v))
  | TypeofWindow k => TypeofWindow (fun b => zoom get put (k b))
  | NewDate k => NewDate (fun t => zoom get put (k t))
  | Await req k => Await req (fun r => zoom get put (k r))
  | Fork c k => Fork (zoom get put c) (zoom get put k)
  end.

(** What a guard or a page puts on the screen. *)
Inductive view : Type :=
| Spinner            (* the loading indicator, no children *)
| Nothing            (* [return null] *)
| Children.          (* the protected content *)

#[global] Instance view_eq_dec : EqDecision view.
Proof. solve_decision. Defined.

(** ** Rendering a component over time

    A component is a [render] function of its props and local state
    and an [effect] that runs after a commit when its dependency list
    changed.  [same_deps p q] is React's verdict that the dependencies
    of two renders agree ([Object.is] on each entry). *)
Section Component.
Context {P L : Type}.
Variable same_deps : P -> P -> bool.
Variable render : P -> L -> view.
Variable effect : P -> Prog L unit.

Record Mounted : Type := {
  local : World L;               (* local state, and what the effects did *)
  last : option P;               (* the props of the last commit *)
  frames : list view;            (* everything that was put on screen *)
}.

Definition deps_changed (p : P) (m : Mounted) : bool :=
  match last m with
  | None => true                 (* on mount the effect always runs *)
  | Some q => negb (same_deps q p)
  end.

(** One render with props [p]: the view is committed, the effect runs
    if its dependencies changed, and a write to local state makes the
    component render once more. *)
Definition commit (p : P) (m : Mounted) : Mounted :=
  let v := render p (state (local m)) in
  if deps_changed p m then
    let w := world (spawn (effect p) (local m) []) in
    let again :=
      if (length (writes (log (local m))) <? length (writes (log w)))%nat
      then [render p (state w)] else [] in
    {| local := w; last := Some p; frames := frames m ++ v :: again |}
  else
    {| local := local m; last := Some p; frames := frames m ++ [v] |}.

(** The component over a sequence of props, one render each. *)
Definition drive (ps : list P) (m : Mounted) : Mounted :=
  foldl (fun m p => commit p m) m ps.

End Component.

Global Arguments Mounted P L : clear implicits.

(** A freshly mounted component with local state [l] in a browser. *)
Definition mounted {P L : Type} (l : L) : Mounted P L :=
  {| local := {| cookies := ∅; window := true; now := 0; state := l; log := [] |};
     last := None; frames := [] |}.

(** The client-side route changes so far. *)
Fixpoint pushes {S : Type} (l : list (event S)) : list string :=
  match l with
  | [] => []
  | EPush h :: l' => h :: pushes l'
  | _ :: l' => pushes l'
  end.

(** ** Reading JavaScript values inside a handler *)

(** [v.k] inside a handler: reading a property of [null] throws. *)
Definition get_prop {S : Type} (v : json) (k : string) : Prog S (option json) :=
  match v with
  | JNull => Throw (Error "TypeError" "Cannot read properties of null")
  | JObj fields => Ret (assoc k fields)
  | _ => Ret None
  end.

(** [v.k] where [v] is known not to be [null]. *)
Definition prop (v : json) (k : string) : option json :=
  match v with
  | JObj fields => assoc k fields
  | _ => None
  end.

(** [window.location.href = href] in code that may also run where there
    is no browser: the global [window] is looked up first, and the
    lookup throws when it does not exist. *)
Definition set_location_href {S : Type} (href : string) : Prog S unit :=
  TypeofWindow (fun defined =>
    if defined then do_ (SetLocationHref href)
    else Throw (Error "ReferenceError" "window is not defined")).

(** [d.toISOString()]: a [RangeError] on an invalid date. *)
Definition toISOString {env : Env} {S : Type} (d : number) : Prog S string :=
  match d with
  | Num t => Ret (Date_toISOString t)
  | _ => Throw (Error "RangeError" "Invalid time value")
  end.

Inductive FitnessLevel : Type := beginner | intermediate | advanced.

Definition FitnessLevel_str (l : FitnessLevel) : string :=
  match l with
  | beginner => "beginner"
  | intermediate => "intermediate"
  | advanced => "advanced"
  end.

(** The object given to [JSON.stringify] by both profile forms. *)
Definition ProfileCreate (race_date : string) (goal_time_minutes : number)
    (fitness_level : FitnessLevel) : json :=
  JObj [("race_date", JStr race_date);
        ("goal_time_minutes", JNum goal_time_minutes);
        ("fitness_level", JStr (FitnessLevel_str fitness_level))].

(** ** More of the JavaScript library *)

(** [s || d] for a string [s] that may be [undefined]. *)
Definition or_string (s : option string) (d : string) : string :=
  match s with
  | Some v => if String.eqb v "" then d else v
  | None => d
  end.

(** [s.toUpperCase()] on the letters [a] to [z]; other characters of
    the strings it is applied to here (digits, [_], capitals) have no
    upper case of their own. *)
Fixpoint toUpperCase (s : string) : string :=
  match s with
  | EmptyString => EmptyString
  | String c s' =>
      String (if (Ascii.leb "a" c && Ascii.leb c "z")%char
              then ascii_of_nat (nat_of_ascii c - 32) else c)
             (toUpperCase s')
  end.

(** [v !== null] *)
Definition not_null (v : json) : bool :=
  match v with JNull => false | _ => true end.

(** [v?.k]: [undefined] when [v] is [null] or [undefined]. *)
Definition opt_prop (v : option json) (k : string) : option json :=
  match v with
  | Some (JObj fields) => assoc k fields
  | _ => None
  end.

(** [e.status]: [undefined] on an error that is not an [ApiError]. *)
Definition exn_status (e : exn) : option Z :=
  match e with
  | ApiError _ st => Some st
  | Error _ _ => None
  end.

(** [new Date(v)] for a value read from a response: a string is
    parsed, a number is the time value itself (its fraction dropped,
    within the range of dates), [null] and the booleans convert to
    numbers, [undefined] is an invalid date, and an array or an object
    is converted to a string first. *)
Definition Date_of {env : Env} (v : option json) : number :=
  match v with
  | None => NaN
  | Some JNull => Num 0
  | Some (JBool b) => Num (if b then 1 else 0)
  | Some (JNum (Num t)) => TimeClip t
  | Some (JNum (Frac m e)) => TimeClip (Z.quot m (2 ^ (- e)))
  | Some (JNum _) => NaN
  | Some (JStr s) => Date_parse s
  | Some (JArr items) => Date_parse (String_ (JArr items))
  | Some (JObj fields) => Date_parse (String_ (JObj fields))
  end.

(* ================================================================== *)
(** * The first tree: [frontend/] *)
(* ================================================================== *)

Module Frontend.

(** ** [lib/api.ts] *)

(** [FetchOptions extends RequestInit]. *)
Record FetchOptions : Type := {
  requireAuth : option bool;
  fetchOptions : RequestInit;
}.

Definition no_options : FetchOptions :=
  {| requireAuth := None; fetchOptions := no_init |}.

Definition POST : FetchOptions :=
  {| requireAuth := None;
     fetchOptions := {| method := Some "POST"; headers := ∅; body := None;
                        credentials := None |} |}.

Definition POST_json (data : json) : FetchOptions :=
  {| requireAuth := None;
     fetchOptions := {| method := Some "POST"; headers := ∅; body := Some data;
                        credentials := None |} |}.

Section Api.
Context {env : Env} {S : Type}.

(** [fetchApi<T>(endpoint, options = {})]. *)
Definition fetchApi (endpoint : string) (options : FetchOptions) : Prog S json :=
  let requireAuth_ := default true (requireAuth options) in
  let rest := fetchOptions options in
  let headers_ := headers rest ∪ {[ "Content-Type" := "application/json" ]} in
  response ← fetch (API_BASE_URL +:+ endpoint)
               {| method := method rest; headers := headers_;
                  body := body rest; credentials := Some "include" |};
  if negb (ok response) then
    (if (status response =? 401) && requireAuth_ then
       (* Redirect to login on auth failure *)
       TypeofWindow (fun defined =>
         if defined then do_ (SetLocationHref "/") else Ret tt)
     else Ret tt);;
    errorData ← try_catch (response_json response)
                  (fun _ => Ret (JObj [("detail", JStr "Unknown error")]));
    detail ← get_prop errorData "detail";
    Throw (ApiError (if truthy detail then from_option String_ "" detail
                     else "Request failed")
                    (status response))
  else response_json response.

(** [authApi] *)
Definition authApi_getMe : Prog S json :=
  fetchApi "/auth/me" {| requireAuth := Some false; fetchOptions := no_init |}.
Definition authApi_logout : Prog S json := fetchApi "/auth/logout" POST.
Definition authApi_getStravaAuthUrl : string := API_BASE_URL +:+ "/auth/strava".

(** [profileApi] *)
Definition profileApi_get : Prog S json := fetchApi "/api/profile" no_options.
Definition profileApi_create (data : json) : Prog S json :=
  fetchApi "/api/profile" (POST_json data).

(** [runsApi]; the defaults are [limit = 50], [offset = 0]. *)
Definition runsApi_getAll (limit offset : Z) : Prog S json :=
  fetchApi ("/api/runs?limit=" +:+ toString (Num limit) +:+
            "&offset=" +:+ toString (Num offset)) no_options.
Definition runsApi_sync : Prog S json := fetchApi "/api/runs/sync" POST.

(** [trainingPlanApi]; the default is [regenerate = false]. *)
Definition trainingPlanApi_get : Prog S json :=
  fetchApi "/api/training-plan" no_options.
Definition trainingPlanApi_generate (regenerate : bool) : Prog S json :=
  fetchApi "/api/training-plan/generate"
           (POST_json (JObj [("regenerate", JBool regenerate)])).

End Api.

(** ** [hooks/useAuth.ts] and the [AuthProvider] context

    The hook and the context provider hold the same state and the same
    three functions, word for word. *)
Record AuthState : Type := {
  user : json;                   (* [User | null] *)
  isLoading : bool;
  isAuthenticated : bool;
  error : option string;
}.

#[global] Instance json_inhabited : Inhabited json := populate JNull.

(** The state [useState] starts from. *)
Definition initialState : AuthState :=
  {| user := JNull; isLoading := true; isAuthenticated := false; error := None |}.

Section UseAuth.
Context {env : Env}.

Definition fetchUser : Prog AuthState unit :=
  try_catch
    (user_ ← authApi_getMe;
     do_ (SetState (fun _ =>
       {| user := user_; isLoading := false; isAuthenticated := true;
          error := None |})))
    (fun err =>
     do_ (SetState (fun _ =>
       {| user := JNull; isLoading := false; isAuthenticated := false;
          error := Some (if instanceof_ApiError err then exn_message err
                         else "Failed to fetch user") |}))).

(** [useEffect(() => { fetchUser(); }, [fetchUser])]: once, on mount. *)
Definition mount : Prog AuthState unit := Fork fetchUser (Ret tt).

(** [logout] is the click handler of the navigation bar: it runs in a
    browser, where [window] exists. *)
Definition logout : Prog AuthState unit :=
  try_catch
    (authApi_logout;;
     do_ (SetState (fun _ =>
       {| user := JNull; isLoading := false; isAuthenticated := false;
          error := None |}));;
     do_ (SetLocationHref "/"))
    (fun err => do_ (ConsoleError "Logout failed:" err)).

Definition refresh : Prog AuthState unit :=
  do_ (SetState (fun prev =>
    {| user := user prev; isLoading := true;
       isAuthenticated := isAuthenticated prev; error := error prev |}));;
  Fork fetchUser (Ret tt).

End UseAuth.

(** ** [components/ProtectedRoute.tsx] *)

(** [requireProfile && user && !user.has_profile] *)
Definition profile_missing (requireProfile : bool) (u : json) : bool :=
  requireProfile && truthy (Some u) && negb (truthy (prop u "has_profile")).

(** The body of the guard's [useEffect]. *)
Definition ProtectedRoute_effect {L : Type} (requireProfile : bool)
    (s : AuthState) : Prog L unit :=
  if negb (isLoading s) then
    if negb (isAuthenticated s) then do_ (RouterPush "/")
    else if profile_missing requireProfile (user s)
         then do_ (RouterPush "/onboarding")
         else Ret tt
  else Ret tt.

(** What the guard returns. *)
Definition ProtectedRoute (requireProfile : bool) (s : AuthState) (_ : unit) : view :=
  if isLoading s then Spinner
  else if negb (isAuthenticated s) then Nothing
  else if profile_missing requireProfile (user s) then Nothing
  else Children.

(** The later revision of the same file keeps an [isRedirecting] flag
    and shows the spinner instead of nothing. *)
Definition ProtectedRoute2_effect (requireProfile : bool)
    (s : AuthState) : Prog bool unit :=
  if negb (isLoading s) then
    if negb (isAuthenticated s) then
      do_ (SetState (fun _ => true));; do_ (RouterPush "/")
    else if profile_missing requireProfile (user s) then
      do_ (SetState (fun _ => true));; do_ (RouterPush "/onboarding")
    else Ret tt
  else Ret tt.

Definition ProtectedRoute2 (requireProfile : bool) (s : AuthState)
    (isRedirecting : bool) : view :=
  if isLoading s || isRedirecting || negb (isAuthenticated s)
     || profile_missing requireProfile (user s)
  then Spinner else Children.

(** ** [app/dashboard/page.tsx] *)
Module Dashboard.

(** [TrainingWeek]; the distance and the workouts are carried along
    untouched and left out. *)
Record TrainingWeek : Type := {
  week_number : Z;
  start_date : string;
  end_date : string;
  theme : string;
}.

(** date-fns [isWithinInterval(date, {start, end})]: both ends
    included.  (Since date-fns 3 the two ends are put in order first;
    earlier versions throw when [start] is after [end].) *)
Definition isWithinInterval (date start end_ : number) : bool :=
  match start, end_ with
  | Num s, Num e =>
      num_geb date (Num (Z.min s e)) && num_leb date (Num (Z.max s e))
  | _, _ => false                (* an invalid date compares false *)
  end.

(** The step of [fetchData] commented [Find current week], for a plan
    that was fetched: [weeks.find(...) || weeks[0]].  (The [weekStart]
    and [weekEnd] of the current calendar week computed just before it
    are never used.) *)
Definition fetchData_currentWeek {env : Env} (now_ : Z) (weeks : list TrainingWeek)
  : option TrainingWeek :=
  let today := Num now_ in
  let current :=
    find (fun week =>
            let wStart := parseISO (start_date week) in
            let wEnd := parseISO (end_date week) in
            isWithinInterval today wStart wEnd) weeks in
  match current with
  | Some w => Some w
  | None => head weeks
  end.

End Dashboard.

(** ** [app/onboarding/page.tsx] *)
Module Onboarding.

(** The session the page reads through [useAuth] and its own state. *)
Record State : Type := {
  auth : AuthState;
  isSubmitting : bool;
  error : option string;
}.

Definition set_auth (a : AuthState) (s : State) : State :=
  {| auth := a; isSubmitting := isSubmitting s; error := error s |}.

Definition setIsSubmitting (b : bool) : Prog State unit :=
  do_ (SetState (fun s => {| auth := auth s; isSubmitting := b; error := error s |})).

Definition setError (e : option string) : Prog State unit :=
  do_ (SetState (fun s => {| auth := auth s; isSubmitting := isSubmitting s; error := e |})).

(** [handleSubmit], with the form fields it closes over (after
    [e.preventDefault()], which only concerns the DOM event). *)
Definition handleSubmit {env : Env} (raceDate goalHours goalMinutes : string)
    (fitnessLevel : FitnessLevel) : Prog State unit :=
  setError None;;
  setIsSubmitting true;;
  try_catch
    (let goalTimeMinutes :=
       num_add (num_mul (parseInt goalHours) (Num 60)) (parseInt goalMinutes) in
     (* Create profile *)
     race_date ← toISOString (Date_parse raceDate);
     profileApi_create (ProfileCreate race_date goalTimeMinutes fitnessLevel);;
     (* Generate training plan *)
     trainingPlanApi_generate false;;
     (* Refresh user data and redirect *)
     zoom auth set_auth refresh;;
     do_ (RouterPush "/dashboard"))
    (fun err =>
       (if instanceof_ApiError err then setError (Some (exn_message err))
        else setError (Some "Something went wrong. Please try again."));;
       setIsSubmitting false).

End Onboarding.

(** ** [lib/api.ts]: where the backend is *)

(** [getApiBaseUrl()], reading the [process.env] the client was built
    with. *)
Definition getApiBaseUrl (process_env : gmap string string) : string :=
  let isPreview :=
    bool_decide (process_env !! "NEXT_PUBLIC_VERCEL_TARGET_ENV" = Some "preview"%string) in
  if isPreview
     && negb (String.eqb (or_string (process_env !! "NEXT_PUBLIC_PREVIEW_BACKEND_URL") "") "")
  then or_string (process_env !! "NEXT_PUBLIC_PREVIEW_BACKEND_URL") ""
  else or_string (process_env !! "NEXT_PUBLIC_API_URL") "http://localhost:8000".

(** ** [app/runs/page.tsx] *)
Module Runs.

(** The page's state.  A field written from a response body holds
    whatever the body has under that name ([None]: [undefined]). *)
Record State : Type := {
  runs : option json;            (* [Run[]] *)
  total : option json;           (* [number] *)
  isLoading : bool;
  isSyncing : bool;
  error : option string;         (* [string | null] *)
  syncMessage : option json;     (* [string | null] *)
}.

Definition initialState : State :=
  {| runs := Some (JArr []); total := Some (JNum (Num 0)); isLoading := true;
     isSyncing := false; error := None; syncMessage := Some JNull |}.

Definition setRuns (v : option json) : Prog State unit :=
  do_ (SetState (fun s =>
    {| runs := v; total := total s; isLoading := isLoading s;
       isSyncing := isSyncing s; error := error s; syncMessage := syncMessage s |})).

Definition setTotal (v : option json) : Prog State unit :=
  do_ (SetState (fun s =>
    {| runs := runs s; total := v; isLoading := isLoading s;
       isSyncing := isSyncing s; error := error s; syncMessage := syncMessage s |})).

Definition setIsLoading (b : bool) : Prog State unit :=
  do_ (SetState (fun s =>
    {| runs := runs s; total := total s; isLoading := b;
       isSyncing := isSyncing s; error := error s; syncMessage := syncMessage s |})).

Definition setIsSyncing (b : bool) : Prog State unit :=
  do_ (SetState (fun s =>
    {| runs := runs s; total := total s; isLoading := isLoading s;
       isSyncing := b; error := error s; syncMessage := syncMessage s |})).

Definition setError (e : option string) : Prog State unit :=
  do_ (SetState (fun s =>
    {| runs := runs s; total := total s; isLoading := isLoading s;
       isSyncing := isSyncing s; error := e; syncMessage := syncMessage s |})).

Definition setSyncMessage (v : option json) : Prog State unit :=
  do_ (SetState (fun s =>
    {| runs := runs s; total := total s; isLoading := isLoading s;
       isSyncing := isSyncing s; error := error s; syncMessage := v |})).

Section Page.
Context {env : Env}.

Definition fetchRuns : Prog State unit :=
  finally
    (try_catch
       (data ← runsApi_getAll 100 0;
        runs_ ← get_prop data "runs";
        setRuns runs_;;
        total_ ← get_prop data "total";
        setTotal total_;;
        setError None)
       (fun err =>
          setError (Some (if instanceof_ApiError err then exn_message err
                          else "Failed to load runs"))))
    (setIsLoading false).

Definition syncRuns : Prog State unit :=
  setIsSyncing true;;
  setSyncMessage (Some JNull);;
  setError None;;
  finally
    (try_catch
       (result ← runsApi_sync;
        message ← get_prop result "message";
        setSyncMessage message;;
        (* Refresh runs list *)
        fetchRuns)
       (fun err =>
          setError (Some (if instanceof_ApiError err then exn_message err
                          else "Failed to sync runs"))))
    (setIsSyncing false).

End Page.
End Runs.

(** ** [app/plan/page.tsx] *)
Module Plan.

Record State : Type := {
  plan : json;                   (* [TrainingPlanResponse | null] *)
  isLoading : bool;
  isGenerating : bool;
  error : option string;
  expandedWeeks : gset Z;        (* [Set<number>], of week numbers *)
}.

Definition initialState : State :=
  {| plan := JNull; isLoading := true; isGenerating := false; error := None;
     expandedWeeks := {[ 1 ]} |}.

Definition setPlan (v : json) : Prog State unit :=
  do_ (SetState (fun s =>
    {| plan := v; isLoading := isLoading s; isGenerating := isGenerating s;
       error := error s; expandedWeeks := expandedWeeks s |})).

Definition setIsLoading (b : bool) : Prog State unit :=
  do_ (SetState (fun s =>
    {| plan := plan s; isLoading := b; isGenerating := isGenerating s;
       error := error s; expandedWeeks := expandedWeeks s |})).

Definition setIsGenerating (b : bool) : Prog State unit :=
  do_ (SetState (fun s =>
    {| plan := plan s; isLoading := isLoading s; isGenerating := b;
       error := error s; expandedWeeks := expandedWeeks s |})).

Definition setError (e : option string) : Prog State unit :=
  do_ (SetState (fun s =>
    {| plan := plan s; isLoading := isLoading s; isGenerating := isGenerating s;
       error := e; expandedWeeks := expandedWeeks s |})).

Definition setExpandedWeeks (ws : gset Z) : Prog State unit :=
  do_ (SetState (fun s =>
    {| plan := plan s; isLoading := isLoading s; isGenerating := isGenerating s;
       error := error s; expandedWeeks := ws |})).

Section Page.
Context {env : Env}.

Definition fetchPlan : Prog State unit :=
  finally
    (try_catch
       (data ← trainingPlanApi_get;
        setPlan data;;
        setError None)
       (fun err =>
          if instanceof_ApiError err && bool_decide (exn_status err = Some 404)
          then setPlan JNull
          else setError (Some (if instanceof_ApiError err then exn_message err
                               else "Failed to load training plan"))))
    (setIsLoading false).

(** the default is [regenerate = false] *)
Definition generatePlan (regenerate : bool) : Prog State unit :=
  setIsGenerating true;;
  setError None;;
  finally
    (try_catch
       (data ← trainingPlanApi_generate regenerate;
        setPlan data)
       (fun err =>
          setError (Some (if instanceof_ApiError err then exn_message err
                          else "Failed to generate training plan"))))
    (setIsGenerating false).

End Page.

(** [toggleWeek(weekNumber)], with the [expandedWeeks] of the render it
    was created in. *)
Definition toggleWeek (expandedWeeks_ : gset Z) (weekNumber : Z) : Prog State unit :=
  let newExpanded :=
    if decide (weekNumber ∈ expandedWeeks_)
    then expandedWeeks_ ∖ {[ weekNumber ]}
    else expandedWeeks_ ∪ {[ weekNumber ]} in
  setExpandedWeeks newExpanded.

Definition collapseAll : Prog State unit := setExpandedWeeks ∅.

End Plan.

(** ** [app/auth/callback/page.tsx] *)
Module AuthCallback.

(** What happens when the page mounts: the [useEffect] of the
    [useAuth] hook the page calls, then the page's own first effect,
    [refresh()].  (The redirect effect below also runs, on the session
    of the first render, which is still loading.) *)
Definition effects_on_mount {env : Env} : Prog AuthState unit :=
  mount;;
  refresh.

(** The redirect effect, for the session of the render it belongs
    to. *)
Definition redirect_effect {L : Type} (s : AuthState) : Prog L unit :=
  if negb (isLoading s) && isAuthenticated s then
    if truthy (opt_prop (Some (user s)) "has_profile")
    then do_ (RouterPush "/dashboard")
    else do_ (RouterPush "/onboarding")
  else if negb (isLoading s) && negb (isAuthenticated s) then
    (* Auth failed, redirect to home *)
    do_ (RouterPush "/")
  else Ret tt.

(** The page shows the spinner, whatever the session. *)
Definition render (s : AuthState) (_ : unit) : view := Spinner.

End AuthCallback.

End Frontend.

(* ================================================================== *)
(** * The second tree: [frontend/src/] *)
(* ================================================================== *)

Module FrontendSrc.

(** ** [lib/utils.ts] *)

(** [formatGoalTime(minutes)]. *)
Definition formatGoalTime (minutes : number) : string :=
  let hours := Math_floor_div minutes 60 in
  let mins := num_rem minutes 60 in
  toString hours +:+ ":" +:+ padStart 2 "0" (toString mins) +:+ ":00".

(** [parseTimeToMinutes(timeStr)]. *)
Definition parseTimeToMinutes (timeStr : string) : number :=
  let parts := Number <$> split ":"%char timeStr in
  match parts with
  | [p0; p1; p2] =>
      num_add (num_add (num_mul p0 (Num 60)) p1) (Math_round_div p2 60)
  | [p0; p1] => num_add (num_mul p0 (Num 60)) p1
  | _ => Num 0
  end.

(** [formatDuration(seconds)]. *)
Definition formatDuration (seconds : number) : string :=
  let hours := Math_floor_div seconds 3600 in
  let minutes := Math_floor_div (num_rem seconds 3600) 60 in
  let secs := num_rem seconds 60 in
  if num_gtb hours (Num 0) then
    toString hours +:+ ":" +:+ padStart 2 "0" (toString minutes) +:+ ":"
    +:+ padStart 2 "0" (toString secs)
  else
    toString minutes +:+ ":" +:+ padStart 2 "0" (toString secs).

(** [daysUntil(date)] at the instant [now_], for a date given as a
    string. *)
Definition daysUntil {env : Env} (now_ : Z) (date : string) : number :=
  let targetDate := Date_parse date in
  let today := setHours0 (Num now_) in
  let targetDate := setHours0 targetDate in
  let diffTime := num_sub targetDate today in
  Math_ceil_div diffTime (1000 * 60 * 60 * 24).

(** ** [lib/api.ts]: the [ApiClient] class *)
Section Api.
Context {env : Env} {S : Type}.

(** [Cookies.get("access_token") || null] *)
Definition getToken : Prog S (option string) :=
  CookiesGet "access_token" (fun v =>
    Ret (if truthy (JStr <$> v) then v else None)).

(** [request<T>(endpoint, options = {})]. *)
Definition request (endpoint : string) (options : RequestInit) : Prog S json :=
  token ← getToken;
  let headers0 := headers options ∪ {[ "Content-Type" := "application/json" ]} in
  let headers_ :=
    match token with
    | Some t => <[ "Authorization" := "Bearer " +:+ t ]> headers0
    | None => headers0
    end in
  response ← fetch (API_BASE_URL +:+ endpoint)
               {| method := method options; headers := headers_;
                  body := body options; credentials := Some "include" |};
  if negb (ok response) then
    if status response =? 401 then
      do_ (CookiesRemove "access_token");;
      set_location_href "/";;
      Throw (Error "Error" "Unauthorized")
    else
      error ← try_catch (response_json response) (fun _ => Ret (JObj []));
      detail ← get_prop error "detail";
      Throw (Error "Error"
               (if truthy detail then from_option String_ "" detail
                else "HTTP error! status: " +:+ toString (Num (status response))))
  else response_json response.

Definition POST_ (data : option json) : RequestInit :=
  {| method := Some "POST"; headers := ∅; body := data; credentials := None |}.

Definition getStravaLoginUrl : string := API_BASE_URL +:+ "/auth/strava".
Definition getMe : Prog S json := request "/auth/me" no_init.
Definition getProfile : Prog S json := request "/api/profile" no_init.
Definition createProfile (data : json) : Prog S json :=
  request "/api/profile" (POST_ (Some data)).
(** the defaults are [skip = 0], [limit = 50] *)
Definition getRuns (skip limit : Z) : Prog S json :=
  request ("/api/runs?skip=" +:+ toString (Num skip) +:+
           "&limit=" +:+ toString (Num limit)) no_init.
Definition syncRuns : Prog S json := request "/api/runs/sync" (POST_ None).
Definition getTrainingPlan : Prog S json := request "/api/training-plan" no_init.
(** the default is [regenerate = false] *)
Definition generateTrainingPlan (regenerate : bool) : Prog S json :=
  request "/api/training-plan/generate"
          (POST_ (Some (JObj [("regenerate", JBool regenerate)]))).

End Api.

(** ** [contexts/AuthContext.tsx] *)
Module AuthContext.

Record State : Type := {
  user : json;                   (* [User | null] *)
  loading : bool;
}.

Definition initialState : State := {| user := JNull; loading := true |}.

Definition setUser (u : json) : Prog State unit :=
  do_ (SetState (fun s => {| user := u; loading := loading s |})).

Definition setLoading (b : bool) : Prog State unit :=
  do_ (SetState (fun s => {| user := user s; loading := b |})).

Section Provider.
Context {env : Env}.

Definition refreshUser : Prog State unit :=
  try_catch
    (token ← CookiesGet "access_token" Ret;
     if negb (truthy (JStr <$> token)) then
       setUser JNull
     else
       userData ← getMe;
       setUser userData)
    (fun error =>
       do_ (ConsoleError "Failed to fetch user:" error);;
       setUser JNull;;
       do_ (CookiesRemove "access_token")).

(** The mount effect. *)
Definition initAuth : Prog State unit :=
  setLoading true;;
  refreshUser;;
  setLoading false.

Definition login (token : string) : Prog State unit :=
  do_ (CookiesSet "access_token" token 7);;   (* 7 days *)
  Fork refreshUser (Ret tt).

(** [logout] is the click handler of the navigation bar: it runs in a
    browser, where [window] exists. *)
Definition logout : Prog State unit :=
  do_ (CookiesRemove "access_token");;
  setUser JNull;;
  do_ (SetLocationHref "/").

End Provider.
End AuthContext.

(** ** [components/ProtectedRoute.tsx] *)

Definition ProtectedRoute_effect {L : Type} (requireProfile : bool)
    (s : AuthContext.State) : Prog L unit :=
  if negb (AuthContext.loading s) then
    if negb (truthy (Some (AuthContext.user s))) then do_ (RouterPush "/")
    else if requireProfile
            && negb (truthy (prop (AuthContext.user s) "has_profile"))
         then do_ (RouterPush "/onboarding")
         else Ret tt
  else Ret tt.

Definition ProtectedRoute (requireProfile : bool) (s : AuthContext.State)
    (_ : unit) : view :=
  if AuthContext.loading s then Spinner
  else if negb (truthy (Some (AuthContext.user s))) then Nothing
  else if requireProfile
          && negb (truthy (prop (AuthContext.user s) "has_profile"))
       then Nothing
  else Children.

(** ** The plan as the pages hold it

    [WeekPlan], [TrainingPlanData] and [TrainingPlan] of [lib/api.ts];
    the distances, the summary and the day workouts are carried along
    untouched and left out. *)
Record WeekPlan : Type := {
  week_number : Z;
  start_date : string;
  focus : string;
}.

Record TrainingPlanData : Type := {
  weeks : option (list WeekPlan);
}.

Record TrainingPlan : Type := {
  id : Z;
  plan_json : option TrainingPlanData;
}.

(** [plan?.plan_json?.weeks] *)
Definition plan_weeks (plan : option TrainingPlan) : option (list WeekPlan) :=
  match plan with
  | Some p =>
      match plan_json p with
      | Some data => weeks data
      | None => None
      end
  | None => None
  end.

(** The test both pages apply to a week:
    [const weekStart = new Date(week.start_date);
     const weekEnd = new Date(weekStart);
     weekEnd.setDate(weekEnd.getDate() + 7);
     today >= weekStart && today < weekEnd]. *)
Definition in_week {env : Env} (today : number) (week : WeekPlan) : bool :=
  let weekStart := Date_parse (start_date week) in
  let weekEnd := addDays 7 weekStart in
  num_geb today weekStart && num_ltb today weekEnd.

(** ** [app/dashboard/page.tsx] *)
Definition getCurrentWeek {env : Env} (now_ : Z) (plan : option TrainingPlan)
  : option WeekPlan :=
  match plan_weeks plan with
  | None => None
  | Some ws =>
      let today := setHours0 (Num now_) in
      match find (in_week today) ws with
      | Some week => Some week
      | None =>
          (* Return first week if no match found *)
          head ws
      end
  end.

(** ** [app/plan/page.tsx] *)
Definition isCurrentWeek {env : Env} (now_ : Z) (plan : option TrainingPlan)
    (weekNumber : Z) : bool :=
  match plan_weeks plan with
  | None => false
  | Some ws =>
      match find (fun w => week_number w =? weekNumber) ws with
      | None => false
      | Some week =>
          let today := setHours0 (Num now_) in
          in_week today week
      end
  end.

(** ** [app/onboarding/page.tsx] *)
Module Onboarding.

(** The provider's state, reached through [useAuth], and the form's. *)
Record State : Type := {
  auth : AuthContext.State;
  loading : bool;
  error : option string;
}.

Definition set_auth (a : AuthContext.State) (s : State) : State :=
  {| auth := a; loading := loading s; error := error s |}.

Definition setLoading (b : bool) : Prog State unit :=
  do_ (SetState (fun s => {| auth := auth s; loading := b; error := error s |})).

Definition setError (e : option string) : Prog State unit :=
  do_ (SetState (fun s => {| auth := auth s; loading := loading s; error := e |})).

(** [handleSubmit], with the form fields it closes over (after
    [e.preventDefault()], which only concerns the DOM event). *)
Definition handleSubmit {env : Env} (raceDate goalTime : string)
    (fitnessLevel : FitnessLevel) : Prog State unit :=
  setLoading true;;
  setError None;;
  finally
    (try_catch
       (let goalTimeMinutes := parseTimeToMinutes goalTime in
        if num_ltb goalTimeMinutes (Num 120) || num_gtb goalTimeMinutes (Num 420)
        then Throw (Error "Error" "Goal time should be between 2:00:00 and 7:00:00")
        else
          let selectedDate := Date_parse raceDate in
          NewDate (fun t =>
            let today := setHours0 (Num t) in
            if num_leb selectedDate today
            then Throw (Error "Error" "Race date must be in the future")
            else
              race_date ← toISOString (Date_parse raceDate);
              createProfile (ProfileCreate race_date goalTimeMinutes fitnessLevel);;
              zoom auth set_auth AuthContext.refreshUser;;
              do_ (RouterPush "/dashboard")))
       (fun err =>
          setError (Some (if instanceof_Error err then exn_message err
                          else "Failed to save profile"))))
    (setLoading false).

End Onboarding.

(** ** [app/dashboard/page.tsx]: loading the page *)
Module Dashboard.

Record State : Type := {
  loading : bool;
  generating : bool;
  profile : json;                (* [Profile | null] *)
  plan : json;                   (* [TrainingPlan | null] *)
  recentRuns : option json;      (* [Run[]]; [None]: [undefined] *)
  error : option string;
}.

Definition initialState : State :=
  {| loading := true; generating := false; profile := JNull; plan := JNull;
     recentRuns := Some (JArr []); error := None |}.

Definition setLoading (b : bool) : Prog State unit :=
  do_ (SetState (fun s =>
    {| loading := b; generating := generating s; profile := profile s;
       plan := plan s; recentRuns := recentRuns s; error := error s |})).

Definition setGenerating (b : bool) : Prog State unit :=
  do_ (SetState (fun s =>
    {| loading := loading s; generating := b; profile := profile s;
       plan := plan s; recentRuns := recentRuns s; error := error s |})).

Definition setProfile (v : json) : Prog State unit :=
  do_ (SetState (fun s =>
    {| loading := loading s; generating := generating s; profile := v;
       plan := plan s; recentRuns := recentRuns s; error := error s |})).

Definition setPlan (v : json) : Prog State unit :=
  do_ (SetState (fun s =>
    {| loading := loading s; generating := generating s; profile := profile s;
       plan := v; recentRuns := recentRuns s; error := error s |})).

Definition setRecentRuns (v : option json) : Prog State unit :=
  do_ (SetState (fun s =>
    {| loading := loading s; generating := generating s; profile := profile s;
       plan := plan s; recentRuns := v; error := error s |})).

Definition setError (e : option string) : Prog State unit :=
  do_ (SetState (fun s =>
    {| loading := loading s; generating := generating s; profile := profile s;
       plan := plan s; recentRuns := recentRuns s; error := e |})).

Section Page.
Context {env : Env}.

Definition fetchData : Prog State unit :=
  finally
    (try_catch
       (profileData ← getProfile;
        setProfile profileData;;
        (* Try to get training plan (might not exist) *)
        try_catch
          (planData ← getTrainingPlan;
           setPlan planData)
          (fun _ => (* No plan yet, that's okay *) Ret tt);;
        (* Get recent runs *)
        try_catch
          (runsData ← getRuns 0 5;
           runs_ ← get_prop runsData "runs";
           setRecentRuns runs_)
          (fun _ => (* No runs yet *) Ret tt))
       (fun err =>
          setError (Some (if instanceof_Error err then exn_message err
                          else "Failed to load dashboard"))))
    (setLoading false).

(** [handleGeneratePlan], with the [plan] of the render it was created
    in. *)
Definition handleGeneratePlan (plan_ : json) : Prog State unit :=
  setGenerating true;;
  setError None;;
  finally
    (try_catch
       (newPlan ← generateTrainingPlan (not_null plan_);
        setPlan newPlan)
       (fun err =>
          setError (Some (if instanceof_Error err then exn_message err
                          else "Failed to generate training plan"))))
    (setGenerating false).

End Page.
End Dashboard.

(** ** [app/plan/page.tsx]: loading the page *)
Module Plan.

Record State : Type := {
  loading : bool;
  generating : bool;
  plan : json;                   (* [TrainingPlan | null] *)
  error : option string;
  expandedWeek : option json;    (* [number | null]; [None]: [undefined] *)
}.

Definition initialState : State :=
  {| loading := true; generating := false; plan := JNull; error := None;
     expandedWeek := Some JNull |}.

Definition setLoading (b : bool) : Prog State unit :=
  do_ (SetState (fun s =>
    {| loading := b; generating := generating s; plan := plan s;
       error := error s; expandedWeek := expandedWeek s |})).

Definition setPlan (v : json) : Prog State unit :=
  do_ (SetState (fun s =>
    {| loading := loading s; generating := generating s; plan := v;
       error := error s; expandedWeek := expandedWeek s |})).

Definition setExpandedWeek (v : option json) : Prog State unit :=
  do_ (SetState (fun s =>
    {| loading := loading s; generating := generating s; plan := plan s;
       error := error s; expandedWeek := v |})).

Section Page.
Context {env : Env}.

(** The [for (const week of ...)] loop of [fetchPlan]: the first week
    that contains [today] is expanded, and the loop ends there. *)
Fixpoint expand_current (today : number) (weeks_ : list json) : Prog State unit :=
  match weeks_ with
  | [] => Ret tt
  | week :: rest =>
      start_date_ ← get_prop week "start_date";
      let weekStart := Date_of start_date_ in
      let weekEnd := addDays 7 weekStart in
      if num_geb today weekStart && num_ltb today weekEnd then
        week_number_ ← get_prop week "week_number";
        setExpandedWeek week_number_
      else expand_current today rest
  end.

Definition fetchPlan : Prog State unit :=
  finally
    (try_catch
       (planData ← getTrainingPlan;
        setPlan planData;;
        (* Auto-expand current week *)
        let weeks_ := opt_prop (opt_prop (Some planData) "plan_json") "weeks" in
        if truthy weeks_ then
          NewDate (fun t =>
            let today := setHours0 (Num t) in
            match weeks_ with
            | Some (JArr items) => expand_current today items
            | Some (JStr s) =>
                (* a string is iterated character by character *)
                expand_current today
                  ((fun c => JStr (String c EmptyString)) <$> list_ascii_of_string s)
            | _ => Throw (Error "TypeError" "weeks is not iterable")
            end)
        else Ret tt)
       (fun _ => (* No plan exists *) Ret tt))
    (setLoading false).

End Page.
End Plan.

(** ** [app/runs/page.tsx] *)
Module Runs.

Record State : Type := {
  loading : bool;
  syncing : bool;
  runs : option json;            (* [Run[]]; [None]: [undefined] *)
  total : option json;           (* [number] *)
  error : option string;
  syncMessage : option json;     (* [string | null] *)
}.

Definition initialState : State :=
  {| loading := true; syncing := false; runs := Some (JArr []);
     total := Some (JNum (Num 0)); error := None; syncMessage := Some JNull |}.

Definition setLoading (b : bool) : Prog State unit :=
  do_ (SetState (fun s =>
    {| loading := b; syncing := syncing s; runs := runs s; total := total s;
       error := error s; syncMessage := syncMessage s |})).

Definition setSyncing (b : bool) : Prog State unit :=
  do_ (SetState (fun s =>
    {| loading := loading s; syncing := b; runs := runs s; total := total s;
       error := error s; syncMessage := syncMessage s |})).

Definition setRuns (v : option json) : Prog State unit :=
  do_ (SetState (fun s =>
    {| loading := loading s; syncing := syncing s; runs := v; total := total s;
       error := error s; syncMessage := syncMessage s |})).

Definition setTotal (v : option json) : Prog State unit :=
  do_ (SetState (fun s =>
    {| loading := loading s; syncing := syncing s; runs := runs s; total := v;
       error := error s; syncMessage := syncMessage s |})).

Definition setError (e : option string) : Prog State unit :=
  do_ (SetState (fun s =>
    {| loading := loading s; syncing := syncing s; runs := runs s; total := total s;
       error := e; syncMessage := syncMessage s |})).

Definition setSyncMessage (v : option json) : Prog State unit :=
  do_ (SetState (fun s =>
    {| loading := loading s; syncing := syncing s; runs := runs s; total := total s;
       error := error s; syncMessage := v |})).

Section Page.
Context {env : Env}.

Definition fetchRuns : Prog State unit :=
  finally
    (try_catch
       (data ← getRuns 0 100;
        runs_ ← get_prop data "runs";
        setRuns runs_;;
        total_ ← get_prop data "total";
        setTotal total_)
       (fun err =>
          setError (Some (if instanceof_Error err then exn_message err
                          else "Failed to load runs"))))
    (setLoading false).

Definition handleSync : Prog State unit :=
  setSyncing true;;
  setError None;;
  setSyncMessage (Some JNull);;
  finally
    (try_catch
       (result ← syncRuns;
        message ← get_prop result "message";
        setSyncMessage message;;
        fetchRuns)
       (fun err =>
          setError (Some (if instanceof_Error err then exn_message err
                          else "Failed to sync runs"))))
    (setSyncing false).

End Page.

(** *** The statistics of the page

    [Run] of [lib/api.ts], with the fields the statistics read. *)
Record Run : Type := {
  distance_meters : number;
  moving_time_seconds : number;
  start_date : string;
}.

(** [runs.reduce((sum, run) => sum + run.distance_meters, 0)] *)
Definition totalDistance (runs_ : list Run) : number :=
  foldl (fun sum run => num_add sum (distance_meters run)) (Num 0) runs_.

(** [runs.reduce((sum, run) => sum + run.moving_time_seconds, 0)] *)
Definition totalTime (runs_ : list Run) : number :=
  foldl (fun sum run => num_add sum (moving_time_seconds run)) (Num 0) runs_.

(** The [weekStart] of the filter: [today] moved back to the Sunday of
    its week, at midnight. *)
Definition weekStart {env : Env} (now_ : Z) : number :=
  setHours0 (addDays (- getDay now_) (Num now_)).

Definition thisWeekRuns {env : Env} (now_ : Z) (runs_ : list Run) : list Run :=
  List.filter
    (fun run =>
       let runDate := Date_parse (start_date run) in
       num_geb runDate (weekStart now_))
    runs_.

Definition thisWeekDistance {env : Env} (now_ : Z) (runs_ : list Run) : number :=
  foldl (fun sum run => num_add sum (distance_meters run)) (Num 0)
        (thisWeekRuns now_ runs_).

End Runs.

End FrontendSrc.

(* ================================================================== *)
(** * The build configuration: [next.config.ts] *)
(* ================================================================== *)

(** [process.env] is a finite map from names to strings; a variable
    that is not set reads as [undefined]. *)
Module NextConfig.

(** [[a-zA-Z0-9]] *)
Definition alphanumeric (c : ascii) : bool :=
  (Ascii.leb "a" c && Ascii.leb c "z" || Ascii.leb "A" c && Ascii.leb c "Z"
   || Ascii.leb "0" c && Ascii.leb c "9")%char.

(** [s.replace(/[^a-zA-Z0-9]/g, "_")] *)
Fixpoint replace_non_alphanumeric (s : string) : string :=
  match s with
  | EmptyString => EmptyString
  | String c s' =>
      String (if alphanumeric c then c else "_"%char) (replace_non_alphanumeric s')
  end.

(** The [sanitizedBranch] of [computePreviewBackendUrl]. *)
Definition sanitizedBranch (branchName : string) : string :=
  substring 0 43 (toUpperCase (replace_non_alphanumeric branchName)).

Definition envVarName (branchName : string) : string :=
  "NEXT_PUBLIC_API_URL_" +:+ sanitizedBranch branchName.

Definition computePreviewBackendUrl (process_env : gmap string string)
  : option string :=
  match process_env !! "VERCEL_GIT_COMMIT_REF" with
  | None => None
  | Some branchName =>
      if String.eqb branchName "" then None
      else process_env !! envVarName branchName
  end.

(** The [env] entry of [nextConfig]. *)
Definition nextConfig_env (process_env : gmap string string) : gmap string string :=
  let previewBackendUrl := or_string (computePreviewBackendUrl process_env) "" in
  {[ "NEXT_PUBLIC_PREVIEW_BACKEND_URL" := previewBackendUrl;
     "NEXT_PUBLIC_VERCEL_TARGET_ENV" :=
       or_string (process_env !! "VERCEL_TARGET_ENV")
                 (or_string (process_env !! "VERCEL_ENV") "");
     "INTERNAL_PREVIEW_API_URL" := previewBackendUrl ]}.

End NextConfig.

(* ================================================================== *)
(** * Vocabulary of the statements *)
(* ================================================================== *)

(** The request [fetchApi endpoint options] sends. *)
Definition fetchApi_request {env : Env} (endpoint : string)
    (options : Frontend.FetchOptions) : Request :=
  {| url := API_BASE_URL +:+ endpoint;
     init := {| method := method (Frontend.fetchOptions options);
                headers := headers (Frontend.fetchOptions options)
                           ∪ {[ "Content-Type" := "application/json" ]};
                body := body (Frontend.fetchOptions options);
                credentials := Some "include" |} |}.

(** [GET /auth/me] as [authApi.getMe] sends it. *)
Definition getMe_request {env : Env} : Request :=
  fetchApi_request "/auth/me"
    {| Frontend.requireAuth := Some false; Frontend.fetchOptions := no_init |}.

(** A page opened at time [t] with state [s]: a browser, no cookie,
    nothing logged, nothing in flight. *)
Definition page {S : Type} (t : Z) (s : S) : Sched S :=
  {| world := {| cookies := ∅; window := true; now := t; state := s; log := [] |};
     parked := [] |}.

(** A response with JSON body [v]. *)
Definition respond (st : Z) (v : json) : reply :=
  inr {| status := st; payload := Some v |}.

(** The signed-out session the hook's [logout] writes. *)
Definition cleared : Frontend.AuthState :=
  {| Frontend.user := JNull; Frontend.isLoading := false;
     Frontend.isAuthenticated := false; Frontend.error := None |}.

(** [{ ...prev, isLoading: true }] *)
Definition loading_of (s : Frontend.AuthState) : Frontend.AuthState :=
  {| Frontend.user := Frontend.user s; Frontend.isLoading := true;
     Frontend.isAuthenticated := Frontend.isAuthenticated s;
     Frontend.error := Frontend.error s |}.

(** The session a [fetchUser] call on its own leaves when its request
    is answered by [r]. *)
Definition settled {env : Env} (r : reply) : Frontend.AuthState :=
  state (world (run (fun _ => r) Frontend.fetchUser (page 0 Frontend.initialState)).1).

(** The window of a week as the dashboard and the plan page compute it:
    from the instant [new Date(start_date)] to the same local time seven
    days of the calendar later. *)
Definition week_window {env : Env} (w : FrontendSrc.WeekPlan) : option (Z * Z) :=
  match Date_parse (FrontendSrc.start_date w) with
  | Num s =>
      match addDays 7 (Num s) with
      | Num e => Some (s, e)
      | _ => None
      end
  | _ => None
  end.

(** The instant [t] lies in the week's window, the start included and
    the end excluded. *)
Definition in_window {env : Env} (t : Z) (w : FrontendSrc.WeekPlan) : Prop :=
  exists s e, week_window w = Some (s, e) /\ s <= t < e.


(** The reply lets [fetchApi] return: a 2xx response with a JSON
    body. *)
Definition succeeds (r : reply) : bool :=
  match r with
  | inr resp => ok resp && bool_decide (is_Some (payload resp))
  | inl _ => false
  end.

(** The instant [t] lies between the week's own start and end dates,
    both included. *)
Definition in_interval {env : Env} (t : Z) (w : Frontend.Dashboard.TrainingWeek) : Prop :=
  exists a b, parseISO (Frontend.Dashboard.start_date w) = Num a
              /\ parseISO (Frontend.Dashboard.end_date w) = Num b
              /\ Z.min a b <= t <= Z.max a b.

(** The weeks of a plan have well-formed, pairwise disjoint intervals
    [[start_date, end_date]]. *)
Definition disjoint_intervals {env : Env}
    (ws : list Frontend.Dashboard.TrainingWeek) : Prop :=
  (forall w a b,
     w ∈ ws ->
     parseISO (Frontend.Dashboard.start_date w) = Num a ->
     parseISO (Frontend.Dashboard.end_date w) = Num b ->
     a <= b)
  /\
  (forall i j wi wj ai bi aj bj,
     i <> j -> ws !! i = Some wi -> ws !! j = Some wj ->
     parseISO (Frontend.Dashboard.start_date wi) = Num ai ->
     parseISO (Frontend.Dashboard.end_date wi) = Num bi ->
     parseISO (Frontend.Dashboard.start_date wj) = Num aj ->
     parseISO (Frontend.Dashboard.end_date wj) = Num bj ->
     bi < aj \/ bj < ai).

(** Once a guard has committed props that are not loading, it has
    pushed the root route. *)
Definition redirected {P L : Type} (loading : P -> bool) (m : Mounted P L) : Prop :=
  forall q, last m = Some q -> loading q = false ->
            "/"%string ∈ pushes (log (local m)).

(** ** Concrete inputs *)

Definition localhost : Env :=
  browser "http://localhost:8000" 0 (conj eq_refl eq_refl).

(** A browser in London, in 2024. *)
Definition london : Env :=
  browser_in "http://localhost:8000" london_2024
    (fun t isUTC =>
       match isUTC with
       | true =>
           match (1711846800000 <=? t) && (t <? 1729990800000) as b
             return - MS_PER_DAY < (if b then 3600000 else 0) < MS_PER_DAY with
           | true => conj eq_refl eq_refl
           | false => conj eq_refl eq_refl
           end
       | false =>
           match (1711850400000 <=? t) && (t <? 1729994400000) as b
             return - MS_PER_DAY < (if b then 3600000 else 0) < MS_PER_DAY with
           | true => conj eq_refl eq_refl
           | false => conj eq_refl eq_refl
           end
       end).

Definition alice : json :=
  JObj [("id", JNum (Num 1)); ("strava_id", JNum (Num 1001));
        ("name", JStr "Alice"); ("has_profile", JBool true)].

Definition bob : json :=
  JObj [("id", JNum (Num 2)); ("strava_id", JNum (Num 1002));
        ("name", JStr "Bob"); ("has_profile", JBool false)].

Definition not_authenticated : reply :=
  respond 401 (JObj [("detail", JStr "Not authenticated")]).

Definition server_error : reply :=
  respond 500 (JObj [("detail", JStr "Internal Server Error")]).

(** A session with [alice] signed in. *)
Definition signed_in : Frontend.AuthState :=
  {| Frontend.user := alice; Frontend.isLoading := false;
     Frontend.isAuthenticated := true; Frontend.error := None |}.

(** A session that [fetchUser] failed to resolve. *)
Definition signed_out : Frontend.AuthState :=
  {| Frontend.user := JNull; Frontend.isLoading := false;
     Frontend.isAuthenticated := false;
     Frontend.error := Some "Not authenticated"%string |}.

(** [Object.is] on the entries of the guards' dependency lists, for
    sessions whose user objects all come from different fetches: two
    users are the same object only when both are [null]. *)
Definition is_null (v : json) : bool :=
  match v with JNull => true | _ => false end.

Definition same_deps_hook (q p : Frontend.AuthState) : bool :=
  Bool.eqb (Frontend.isLoading q) (Frontend.isLoading p)
  && Bool.eqb (Frontend.isAuthenticated q) (Frontend.isAuthenticated p)
  && is_null (Frontend.user q) && is_null (Frontend.user p).

Definition same_deps_context (q p : FrontendSrc.AuthContext.State) : bool :=
  Bool.eqb (FrontendSrc.AuthContext.loading q) (FrontendSrc.AuthContext.loading p)
  && is_null (FrontendSrc.AuthContext.user q)
  && is_null (FrontendSrc.AuthContext.user p).

(** 2024-01-01 and 2024-01-08, the first two weeks of a plan. *)
Definition week1 : FrontendSrc.WeekPlan :=
  {| FrontendSrc.week_number := 1; FrontendSrc.start_date := "2024-01-01";
     FrontendSrc.focus := "Base" |}.

Definition week2 : FrontendSrc.WeekPlan :=
  {| FrontendSrc.week_number := 2; FrontendSrc.start_date := "2024-01-08";
     FrontendSrc.focus := "Build" |}.

Definition two_weeks : option FrontendSrc.TrainingPlan :=
  Some {| FrontendSrc.id := 1;
          FrontendSrc.plan_json := Some {| FrontendSrc.weeks := Some [week1; week2] |} |}.


(** The two weeks around the end of summer time in 2024. *)
Definition oct21 : FrontendSrc.WeekPlan :=
  {| FrontendSrc.week_number := 1; FrontendSrc.start_date := "2024-10-21";
     FrontendSrc.focus := "Peak" |}.

Definition oct28 : FrontendSrc.WeekPlan :=
  {| FrontendSrc.week_number := 2; FrontendSrc.start_date := "2024-10-28";
     FrontendSrc.focus := "Taper" |}.

Definition autumn_weeks : option FrontendSrc.TrainingPlan :=
  Some {| FrontendSrc.id := 3;
          FrontendSrc.plan_json := Some {| FrontendSrc.weeks := Some [oct21; oct28] |} |}.

(** A browser one hour east of UTC, without clock changes. *)
Definition utc_plus_1 : Env :=
  browser "http://localhost:8000" 3600000 (conj eq_refl eq_refl).

(** The same two weeks as the other tree holds them, Monday to Sunday. *)
Definition mon_sun_1 : Frontend.Dashboard.TrainingWeek :=
  {| Frontend.Dashboard.week_number := 1;
     Frontend.Dashboard.start_date := "2024-01-01";
     Frontend.Dashboard.end_date := "2024-01-07";
     Frontend.Dashboard.theme := "Base" |}.

Definition mon_sun_2 : Frontend.Dashboard.TrainingWeek :=
  {| Frontend.Dashboard.week_number := 2;
     Frontend.Dashboard.start_date := "2024-01-08";
     Frontend.Dashboard.end_date := "2024-01-14";
     Frontend.Dashboard.theme := "Build" |}.

(* ================================================================== *)
(** * Theorems *)
(* ================================================================== *)

Example formatGoalTime_240 : FrontendSrc.formatGoalTime (Num 240) = "4:00:00"%string.
Proof. reflexivity. Qed.

Example formatGoalTime_215 : FrontendSrc.formatGoalTime (Num 215) = "3:35:00"%string.
Proof. reflexivity. Qed.

Example parseTimeToMinutes_330 : FrontendSrc.parseTimeToMinutes "3:30:00" = Num 210.
Proof. reflexivity. Qed.

Example parseTimeToMinutes_secs : FrontendSrc.parseTimeToMinutes "3:30:30" = Num 211.
Proof. reflexivity. Qed.

Example parseTimeToMinutes_two : FrontendSrc.parseTimeToMinutes "3:30" = Num 210.
Proof. reflexivity. Qed.

Example parseTimeToMinutes_one : FrontendSrc.parseTimeToMinutes "abc" = Num 0.
Proof. reflexivity. Qed.

Example parseTimeToMinutes_nan : FrontendSrc.parseTimeToMinutes "a:b:c" = NaN.
Proof. reflexivity. Qed.

(** ** Strings and numbers *)

Lemma split_no_char sep s : no_char sep s = true -> split sep s = [s].
Proof.
  induction s as [|a s IH]; simpl; [done|].
  intros [Ha Hs]%andb_prop. apply negb_true_iff in Ha.
  rewrite Ha, (IH Hs). done.
Qed.

Lemma split_app_sep sep s rest :
  no_char sep s = true ->
  split sep (s +:+ String sep rest) = s :: split sep rest.
Proof.
  induction s as [|a s IH]; simpl.
  - intros _. by rewrite Ascii.eqb_refl.
  - intros [Ha Hs]%andb_prop. apply negb_true_iff in Ha.
    rewrite Ha, (IH Hs). done.
Qed.

Lemma no_char_app c s t :
  no_char c s = true -> no_char c t = true -> no_char c (s +:+ t) = true.
Proof.
  induction s as [|a s IH]; simpl; [done|].
  intros [Ha Hs]%andb_prop Ht. rewrite Ha. simpl. auto.
Qed.

Lemma no_colon_uint d : no_char ":" (NilEmpty.string_of_uint d) = true.
Proof. induction d; simpl; auto. Qed.

Lemma no_colon_nz_uint d : no_char ":" (NilZero.string_of_uint d) = true.
Proof. destruct d; try reflexivity; apply (no_colon_uint (_ _)). Qed.

Lemma no_colon_pad_fill n cur :
  no_char ":" cur = true -> no_char ":" (pad_fill n "0" cur) = true.
Proof.
  revert cur. induction n as [|n IH]; intros cur Hc; simpl; [done|].
  destruct cur as [|a cur]; simpl in *.
  - apply IH. done.
  - apply andb_prop in Hc as [-> Hc]. simpl. by apply IH.
Qed.

(** *** Doubles in the safe range *)

(** An integer of at most 53 bits is a double. *)
Lemma round_rat_safe n : Z.abs n <= 2 ^ 53 -> round_rat n 1 = Num n.
Proof.
  intros Hn. unfold round_rat.
  replace (Z.abs n <=? 2 ^ 53) with true by (symmetry; by apply Z.leb_le).
  reflexivity.
Qed.

Lemma num_add_safe x y :
  Z.abs (x + y) <= 2 ^ 53 -> num_add (Num x) (Num y) = Num (x + y).
Proof.
  intros H. unfold num_add, fraction. rewrite !Z.mul_1_r. by apply round_rat_safe.
Qed.

Lemma num_mul_safe x y :
  Z.abs (x * y) <= 2 ^ 53 -> num_mul (Num x) (Num y) = Num (x * y).
Proof.
  intros H. unfold num_mul, fraction. rewrite Z.mul_1_r. by apply round_rat_safe.
Qed.

Lemma num_ltb_Num x y : num_ltb (Num x) (Num y) = (x <? y).
Proof. reflexivity. Qed.

Lemma num_leb_Num x y : num_leb (Num x) (Num y) = (x <=? y).
Proof.
  unfold num_leb, num_eqb. cbn [num_ltb].
  destruct (Z.ltb_spec x y) as [Hlt|Hge]; cbn.
  - symmetry. apply Z.leb_le. lia.
  - destruct (decide (x = y)) as [->|Hne].
    + rewrite bool_decide_eq_true_2 by done. symmetry. apply Z.leb_le. lia.
    + rewrite bool_decide_eq_false_2 by congruence. symmetry. apply Z.leb_gt. lia.
Qed.

Lemma lowest_terms_floor fuel : forall m e,
  e <= 0 ->
  (lowest_terms fuel m e).2 <= 0 /\
  (lowest_terms fuel m e).1 / 2 ^ (- (lowest_terms fuel m e).2) = m / 2 ^ (- e).
Proof.
  induction fuel as [|fuel IH]; intros m e He; simpl; [done|].
  destruct (e <? 0) eqn:Hlt; simpl; [|done].
  destruct (Z.even m) eqn:Hev; simpl; [|done].
  apply Z.ltb_lt in Hlt.
  destruct (IH (m / 2) (e + 1) ltac:(lia)) as [H1 H2]. split; [done|].
  rewrite H2. rewrite Z.div_div by lia.
  replace (- e) with (Z.succ (- (e + 1))) by lia.
  rewrite Z.pow_succ_r by lia. reflexivity.
Qed.

(** [Math.floor] of [m * 2^e]. *)
Lemma Math_floor_dyadic m e :
  e <= 0 -> Math_floor (dyadic m e) = Num (m / 2 ^ (- e)).
Proof.
  intros He. unfold dyadic.
  destruct (m =? 0) eqn:Hm.
  { apply Z.eqb_eq in Hm. subst m. by rewrite Z.div_0_l by (apply Z.pow_nonzero; lia). }
  destruct (0 <=? e) eqn:H0.
  { apply Z.leb_le in H0. assert (e = 0) as -> by lia. simpl.
    by rewrite Z.mul_1_r, Z.div_1_r. }
  pose proof (lowest_terms_floor (Z.to_nat (- e)) m e He) as [H1 H2].
  destruct (lowest_terms (Z.to_nat (- e)) m e) as [m' e']. simpl in H1, H2.
  destruct (0 <=? e') eqn:H0'.
  - apply Z.leb_le in H0'. assert (e' = 0) as -> by lia. simpl in H2.
    rewrite Z.div_1_r in H2. simpl. by rewrite H2.
  - simpl. by rewrite H2.
Qed.

(** Rounding [n / d] to a mantissa [m] over [P]: when the mantissa
    keeps 53 bits ([d * 2^52 <= n * P]) and [n] has no more, the
    rounded value does not reach the next integer. *)
Lemma round_floor n d P :
  0 < d -> 0 <= n < 2 ^ 53 -> 0 < P -> d * 2 ^ 52 <= n * P ->
  let q := (n * P) / d in
  let r := (n * P) mod d in
  let m := if (d <? 2 * r) || ((d =? 2 * r) && Z.odd q) then q + 1 else q in
  0 <= m /\ m / P = n / d.
Proof.
  intros Hd Hn HP HF. cbn zeta.
  set (k := n / d). set (j := n mod d).
  assert (Hnk : n = d * k + j) by (apply Z.div_mod; lia).
  assert (Hj : 0 <= j < d) by (apply Z.mod_pos_bound; lia).
  assert (Hk : 0 <= k) by (apply Z.div_pos; lia).
  assert (HdP : d < 2 * P).
  { change (2 ^ 53) with (2 * 2 ^ 52) in Hn. nia. }
  set (q' := (j * P) / d). set (r' := (j * P) mod d).
  assert (Hjq : j * P = d * q' + r') by (apply Z.div_mod; lia).
  assert (Hr' : 0 <= r' < d) by (apply Z.mod_pos_bound; lia).
  assert (Hq'0 : 0 <= q') by (apply Z.div_pos; nia).
  assert (Hq'P : q' < P) by (apply Z.div_lt_upper_bound; nia).
  assert (Hq : (n * P) / d = k * P + q').
  { symmetry. apply Z.div_unique with r'; [lia|]. rewrite Hnk. nia. }
  assert (Hr : (n * P) mod d = r').
  { symmetry. apply Z.mod_unique with (k * P + q'); [lia|]. rewrite Hnk. nia. }
  rewrite Hq, Hr.
  assert (Hup : d <= 2 * r' -> q' + 1 < P).
  { intros Hge. destruct (Z.eq_dec q' (P - 1)) as [Heq|]; [|lia]. exfalso.
    subst q'. rewrite Heq in Hjq. assert (r' = d - (d - j) * P) by nia. nia. }
  destruct ((d <? 2 * r') || ((d =? 2 * r') && Z.odd (k * P + q'))) eqn:Hb.
  - assert (d <= 2 * r').
    { apply orb_true_iff in Hb as [?%Z.ltb_lt|[?%Z.eqb_eq _]%andb_true_iff]; lia. }
    split; [nia|]. symmetry. apply Z.div_unique with (q' + 1); [lia|nia].
  - split; [nia|]. symmetry. apply Z.div_unique with q'; [lia|nia].
Qed.

Lemma nearest_floor n d :
  0 < n < 2 ^ 53 -> 0 < d < 2 ^ 53 ->
  (nearest n d).2 <= 0 /\ 0 <= (nearest n d).1 /\
  (nearest n d).1 / 2 ^ (- (nearest n d).2) = n / d.
Proof.
  intros Hn Hd. unfold nearest.
  pose proof (Z.log2_spec n ltac:(lia)) as Hln.
  pose proof (Z.log2_spec d ltac:(lia)) as Hld.
  pose proof (Z.log2_nonneg n) as Hln0. pose proof (Z.log2_nonneg d) as Hld0.
  assert (Hln53 : Z.log2 n < 53) by (apply Z.log2_lt_pow2; lia).
  assert (Hld53 : Z.log2 d < 53) by (apply Z.log2_lt_pow2; lia).
  set (ln := Z.log2 n) in *. set (ld := Z.log2 d) in *.
  set (e0 := ln - ld - 53).
  assert (He0 : -105 <= e0 <= -1) by (unfold e0; lia).
  replace (0 <=? e0) with false by (symmetry; apply Z.leb_gt; lia).
  set (q0 := n * 2 ^ (- e0) / d).
  assert (HP0 : 0 < 2 ^ (- e0)) by (apply Z.pow_pos_nonneg; lia).
  assert (HF0 : d * 2 ^ 52 <= n * 2 ^ (- e0)).
  { replace (- e0) with ((52 - ln) + (ld + 1)) by (unfold e0; lia).
    rewrite Z.pow_add_r by lia.
    assert (2 ^ ln * 2 ^ (52 - ln) = 2 ^ 52) by (rewrite <- Z.pow_add_r by lia; f_equal; lia).
    assert (0 < 2 ^ (52 - ln)) by (apply Z.pow_pos_nonneg; lia).
    assert (0 < 2 ^ (ld + 1)) by (apply Z.pow_pos_nonneg; lia).
    replace (Z.succ ld) with (ld + 1) in Hld by lia.
    replace (Z.succ ln) with (ln + 1) in Hln by lia.
    transitivity (2 ^ (ld + 1) * 2 ^ 52); [nia|].
    rewrite <- H. nia. }
  destruct (q0 <? 2 ^ 53) eqn:Hq0.
  - replace (Z.max e0 (-1074)) with e0 by lia.
    replace (0 <=? e0) with false by (symmetry; apply Z.leb_gt; lia).
    cbn [fst snd].
    destruct (round_floor n d (2 ^ (- e0)) ltac:(lia) ltac:(lia) HP0 HF0) as [H1 H2].
    split; [lia|]. split; [exact H1|exact H2].
  - apply Z.ltb_ge in Hq0.
    replace (Z.max (e0 + 1) (-1074)) with (e0 + 1) by lia.
    assert (HP1 : 0 < 2 ^ (- (e0 + 1))) by (apply Z.pow_pos_nonneg; lia).
    assert (HF1 : d * 2 ^ 52 <= n * 2 ^ (- (e0 + 1))).
    { assert (2 ^ 53 * d <= n * 2 ^ (- e0)).
      { pose proof (Z.mul_div_le (n * 2 ^ (- e0)) d ltac:(lia)). fold q0 in H. nia. }
      replace (- e0) with (Z.succ (- (e0 + 1))) in H by lia.
      rewrite Z.pow_succ_r in H by lia.
      change (2 ^ 53) with (2 * 2 ^ 52) in H. lia. }
    destruct (round_floor n d (2 ^ (- (e0 + 1))) ltac:(lia) ltac:(lia) HP1 HF1) as [H1 H2].
    destruct (0 <=? e0 + 1) eqn:H0; cbn [fst snd].
    + apply Z.leb_le in H0. assert (He : e0 + 1 = 0) by lia.
      rewrite He in *. simpl in H1, H2. rewrite Z.mul_1_r in H1, H2.
      change (2 ^ 0) with 1. rewrite !Z.mul_1_r. simpl. split; [lia|]. split; [exact H1|exact H2].
    + split; [lia|]. split; [exact H1|exact H2].
Qed.

(** [Math.floor(n / d)] is the integer quotient as long as [n] and [d]
    have at most 53 bits: the division rounds, but never up to the next
    integer. *)
Lemma Math_floor_div_safe n d :
  0 <= n < 2 ^ 53 -> 0 < d < 2 ^ 53 -> Math_floor_div (Num n) d = Num (n / d).
Proof.
  intros Hn Hd. unfold Math_floor_div, num_div, fraction.
  rewrite Z.sgn_pos, Z.abs_eq, !Z.mul_1_l by lia. unfold round_rat.
  destruct ((d =? 1) && (Z.abs n <=? 2 ^ 53)) eqn:Hfast.
  { apply andb_true_iff in Hfast as [->%Z.eqb_eq _]. simpl. by rewrite Z.div_1_r. }
  destruct (n =? 0) eqn:Hn0.
  { apply Z.eqb_eq in Hn0. subst n. simpl. by rewrite Z.div_0_l by lia. }
  apply Z.eqb_neq in Hn0. rewrite Z.abs_eq by lia.
  destruct (nearest_floor n d ltac:(lia) Hd) as (He & Hm & Hdiv).
  destruct (nearest n d) as [m e]. cbn [fst snd] in *.
  rewrite Z.sgn_pos, Z.mul_1_l by lia.
  destruct ((0 <=? e) && (2 ^ 1024 <=? m * 2 ^ e)) eqn:Hov.
  { exfalso. apply andb_true_iff in Hov as [H0%Z.leb_le Hbig%Z.leb_le].
    assert (e = 0) as -> by lia. simpl in Hdiv, Hbig.
    rewrite Z.div_1_r in Hdiv. rewrite Z.mul_1_r in Hbig.
    assert (n / d <= n) by (apply Z.div_le_upper_bound; nia).
    assert (2 ^ 53 < 2 ^ 1024) by (apply Z.pow_lt_mono_r; lia). lia. }
  rewrite Math_floor_dyadic by done. by rewrite Hdiv.
Qed.

(** *** Digits *)

Lemma uint_of_string_cons a s d :
  NilEmpty.uint_of_string (String a s) = Some d ->
  white_space a = false /\ exists d0, NilEmpty.uint_of_string s = Some d0.
Proof.
  simpl. destruct (NilEmpty.uint_of_string s) as [d0|]; [|done].
  intros H. split; [|eauto]. apply uint_of_char_spec in H.
  repeat (destruct H as [[-> _]|H]; [reflexivity|]).
  destruct H as [-> _]. reflexivity.
Qed.

Lemma trimEnd_uint s : forall d,
  NilEmpty.uint_of_string s = Some d -> trimEnd s = s.
Proof.
  induction s as [|a s IH]; intros d H; [done|].
  apply uint_of_string_cons in H as [Ha [d0 Hs]].
  simpl. rewrite (IH d0 Hs), Ha. by destruct s.
Qed.

Lemma trim_uint s d : NilEmpty.uint_of_string s = Some d -> trim s = s.
Proof.
  intros H. unfold trim.
  assert (trimStart s = s) as ->; [|by apply (trimEnd_uint s d)].
  destruct s as [|a s]; [done|].
  apply uint_of_string_cons in H as [Ha _]. simpl. by rewrite Ha.
Qed.

Lemma of_uint_nonneg d : 0 <= Z.of_uint d.
Proof. unfold Z.of_uint. apply N2Z.is_nonneg. Qed.

(** A run of digits converts to the number it spells, as long as that
    has at most 53 bits. *)
Lemma Number_uint s d :
  NilEmpty.uint_of_string s = Some d -> Z.of_uint d <= 2 ^ 53 ->
  Number s = Num (Z.of_uint d).
Proof.
  intros H Hd. unfold Number. rewrite (trim_uint s d H), H.
  apply round_rat_safe. pose proof (of_uint_nonneg d). lia.
Qed.

(** Zeros in front do not change the number read. *)
Lemma uint_of_string_pad n cur s d :
  (cur = EmptyString \/ cur = "0"%string) ->
  NilEmpty.uint_of_string s = Some d ->
  exists d', NilEmpty.uint_of_string (pad_fill n "0" cur +:+ s) = Some d'
             /\ Z.of_uint d' = Z.of_uint d.
Proof.
  revert cur. induction n as [|n IH]; intros cur Hcur Hs; simpl.
  - eauto.
  - destruct (IH EmptyString (or_introl eq_refl) Hs) as (d' & Hd' & Hv).
    destruct Hcur as [-> | ->]; simpl; rewrite Hd'; simpl; eauto.
Qed.

Lemma nz_uint_of_string d :
  exists d', NilEmpty.uint_of_string (NilZero.string_of_uint d) = Some d'
             /\ Z.of_uint d' = Z.of_uint d.
Proof.
  destruct d; try (eexists; split; [apply (NilEmpty.usu (_ _))|done]).
  exists (D0 Nil); split; reflexivity.
Qed.

(** A non-negative integer of at most 53 bits prints as its digits. *)
Lemma toString_nonneg z :
  0 <= z <= 2 ^ 53 ->
  exists d, toString (Num z) = NilZero.string_of_uint d /\ Z.of_uint d = z.
Proof.
  intros Hz. pose proof (DecimalZ.of_to z) as Hof. unfold toString.
  replace (Z.abs z <=? 2 ^ 53) with true by (symmetry; apply Z.leb_le; lia).
  destruct (Z.to_int z) as [d|d] eqn:E.
  - exists d. done.
  - destruct z; simpl in E; try done; lia.
Qed.

Lemma Number_toString z : 0 <= z <= 2 ^ 53 -> Number (toString (Num z)) = Num z.
Proof.
  intros Hz. destruct (toString_nonneg z Hz) as (d & -> & Hd).
  destruct (nz_uint_of_string d) as (d' & Hd' & Hv).
  rewrite <- Hd, <- Hv. apply Number_uint; [done|]. lia.
Qed.

Lemma Number_padStart n z :
  0 <= z <= 2 ^ 53 -> Number (padStart n "0" (toString (Num z))) = Num z.
Proof.
  intros Hz. destruct (toString_nonneg z Hz) as (d & -> & Hd). unfold padStart.
  destruct (nz_uint_of_string d) as (d' & Hd' & Hv).
  destruct (uint_of_string_pad (n - String.length (NilZero.string_of_uint d))
              "0" _ _ (or_intror eq_refl) Hd') as (d'' & Hd'' & Hv').
  rewrite <- Hd, <- Hv, <- Hv'. apply Number_uint; [done|]. lia.
Qed.

Lemma no_colon_toString z : 0 <= z <= 2 ^ 53 -> no_char ":" (toString (Num z)) = true.
Proof. intros (d & -> & _)%toString_nonneg. apply no_colon_nz_uint. Qed.

Lemma no_colon_padStart n z :
  0 <= z <= 2 ^ 53 -> no_char ":" (padStart n "0" (toString (Num z))) = true.
Proof.
  intros Hz. unfold padStart. apply no_char_app.
  - by apply no_colon_pad_fill.
  - by apply no_colon_toString.
Qed.

(** ** Goal times *)

(** What [formatGoalTime] prints splits back into its three fields. *)
Lemma split_formatGoalTime m :
  0 <= m < 2 ^ 53 ->
  split ":" (FrontendSrc.formatGoalTime (Num m)) =
  [toString (Num (m / 60)); padStart 2 "0" (toString (Num (Z.rem m 60))); "00"%string].
Proof.
  intros Hm.
  assert (Hq : 0 <= m / 60 <= 2 ^ 53).
  { split; [apply Z.div_pos; lia|]. apply Z.div_le_upper_bound; lia. }
  assert (Hr : 0 <= Z.rem m 60 <= 2 ^ 53).
  { rewrite Z.rem_mod_nonneg by lia. pose proof (Z.mod_pos_bound m 60 ltac:(lia)). lia. }
  unfold FrontendSrc.formatGoalTime.
  rewrite Math_floor_div_safe by lia. cbn [num_rem].
  change (":" +:+ ?x) with (String ":" x).
  rewrite split_app_sep by (by apply no_colon_toString).
  change (":00"%string) with (String ":" "00").
  rewrite split_app_sep by (by apply no_colon_padStart).
  reflexivity.
Qed.

(** C9 (as the code has it): for every non-negative integer number of
    minutes [m] below [2^53], [parseTimeToMinutes (formatGoalTime m) =
    m]: the printed string is [H:MM:00], and parsing recombines [H * 60
    + MM + round (0 / 60)], every step of which is exact in that
    range. *)
Theorem parseTimeToMinutes_formatGoalTime (m : Z) :
  0 <= m < 2 ^ 53 ->
  FrontendSrc.parseTimeToMinutes (FrontendSrc.formatGoalTime (Num m)) = Num m.
Proof.
  intros Hm.
  assert (Hq : 0 <= m / 60 <= 2 ^ 53).
  { split; [apply Z.div_pos; lia|]. apply Z.div_le_upper_bound; lia. }
  assert (Hr : 0 <= Z.rem m 60 <= 2 ^ 53).
  { rewrite Z.rem_mod_nonneg by lia. pose proof (Z.mod_pos_bound m 60 ltac:(lia)). lia. }
  assert (Hdm : m / 60 * 60 + Z.rem m 60 = m).
  { rewrite Z.rem_mod_nonneg by lia. pose proof (Z.div_mod m 60 ltac:(lia)). lia. }
  unfold FrontendSrc.parseTimeToMinutes.
  rewrite split_formatGoalTime by done. cbn [fmap list_fmap].
  rewrite Number_toString, Number_padStart by done.
  change (Math_round_div (Number "00") 60) with (Num 0).
  assert (Hmul : 0 <= m / 60 * 60 <= m) by (rewrite Z.rem_mod_nonneg in Hdm by lia;
    pose proof (Z.mod_pos_bound m 60 ltac:(lia)); lia).
  rewrite num_mul_safe by lia.
  rewrite num_add_safe by lia.
  rewrite num_add_safe by lia.
  f_equal. lia.
Qed.

Lemma parseTimeToMinutes_formatGoalTime_witness :
  0 <= 215 < 2 ^ 53 /\
  FrontendSrc.parseTimeToMinutes (FrontendSrc.formatGoalTime (Num 215)) = Num 215.
Proof.
  assert (H : 0 <= 215 < 2 ^ 53) by (split; [lia | reflexivity]).
  split; [exact H | apply (parseTimeToMinutes_formatGoalTime 215 H)].
Defined.

(** Above [2^53] the round trip fails.  70225653656714584 is a double;
    it prints as [1170427560945243:04:00], and [1170427560945243 * 60]
    lies halfway between two doubles and is rounded to the lower one,
    8 below the number of minutes that was printed. *)
Lemma formatGoalTime_round_trip_fails :
  let m := 70225653656714584 in
  0 <= m
  /\ round_rat m 1 = Num m
  /\ FrontendSrc.formatGoalTime (Num m) = "1170427560945243:04:00"%string
  /\ FrontendSrc.parseTimeToMinutes (FrontendSrc.formatGoalTime (Num m))
     = Num 70225653656714576.
Proof. vm_compute. split_and!; congruence. Qed.

Example iso_date_2024_01_01 : iso_date_utc "2024-01-01" = Num 1704067200000.
Proof. reflexivity. Qed.

Example iso_date_past_end_of_month :
  iso_date_utc "2024-02-30" = iso_date_utc "2024-03-01" /\ iso_day "2024-02-30" = None.
Proof. split; reflexivity. Qed.

Example iso_string_2024 : iso_string 1704067200000 = "2024-01-01T00:00:00.000Z"%string.
Proof. reflexivity. Qed.

(* ------------------------------------------------------------------ *)
(** ** Running handlers *)

Ltac unmonad := unfold mbind, Prog_bind, mret, Prog_ret in *.

Lemma run_bind {S A B : Type} (net : nat -> reply) (p : Prog S A)
    (f : A -> Prog S B) (σ : Sched S) :
  run net (bind p f) σ =
  match run net p σ with
  | (σ', inr a) => run net (f a) σ'
  | (σ', inl e) => (σ', inl e)
  end.
Proof. revert B f σ. induction p; intros B f σ; simpl; auto. Qed.

Lemma run_try_catch {S A : Type} (net : nat -> reply) (p : Prog S A)
    (h : exn -> Prog S A) (σ : Sched S) :
  run net (try_catch p h) σ =
  match run net p σ with
  | (σ', inl e) => run net (h e) σ'
  | (σ', inr a) => (σ', inr a)
  end.
Proof. revert h σ. induction p; intros h σ; simpl; auto. Qed.

Lemma run_finally {S A : Type} (net : nat -> reply) (p : Prog S A)
    (f : Prog S unit) (σ : Sched S) :
  run net (finally p f) σ =
  match run net p σ with
  | (σ', r) =>
      match run net f σ' with
      | (σ'', inr _) => (σ'', r)
      | (σ'', inl e) => (σ'', inl e)
      end
  end.
Proof.
  revert f σ. induction p; intros f σ; simpl; auto;
    rewrite run_bind; destruct (run net f σ) as [? [|]]; done.
Qed.

Lemma fetches_app {S : Type} (l l' : list (event S)) :
  fetches (l ++ l') = fetches l ++ fetches l'.
Proof. induction l as [|[] l IH]; simpl; rewrite ?IH; done. Qed.

Lemma navigations_app {S : Type} (l l' : list (event S)) :
  navigations (l ++ l') = navigations l ++ navigations l'.
Proof. induction l as [|[] l IH]; simpl; rewrite ?IH; done. Qed.

Lemma writes_app {S : Type} (l l' : list (event S)) :
  writes (l ++ l') = writes l ++ writes l'.
Proof. induction l as [|[] l IH]; simpl; rewrite ?IH; done. Qed.

Lemma pushes_app {S : Type} (l l' : list (event S)) :
  pushes (l ++ l') = pushes l ++ pushes l'.
Proof. induction l as [|[] l IH]; simpl; rewrite ?IH; done. Qed.

(* ------------------------------------------------------------------ *)
(** ** The API clients *)

Lemma ok_401 (resp : Response) : status resp = 401 -> ok resp = false.
Proof. unfold ok. intros ->. reflexivity. Qed.

(** [ApiClient.request] on a 401: the token cookie is removed; in a
    browser the page then navigates to the root, once, and
    [Error("Unauthorized")] is thrown; where there is no [window] the
    assignment to [window.location.href] throws a [ReferenceError]
    instead, and there is no navigation. *)
Lemma request_401 {env : Env} {S : Type} (net : nat -> reply) (σ : Sched S)
    (endpoint : string) (options : RequestInit) (resp : Response) :
  net (length (fetches (log (world σ)))) = inr resp ->
  status resp = 401 ->
  exists req,
    url req = API_BASE_URL +:+ endpoint /\
    run net (FrontendSrc.request endpoint options) σ =
    ({| world := logged (EFetch req :: ECookieRemove "access_token" ::
                           if window (world σ) then [ENavigate "/"] else [])
                   {| cookies := delete "access_token" (cookies (world σ));
                      window := window (world σ); now := now (world σ);
                      state := state (world σ); log := log (world σ) |};
        parked := parked σ |},
     inl (if window (world σ) then Error "Error" "Unauthorized"
          else Error "ReferenceError" "window is not defined")).
Proof.
  intros Hnet Hst. eexists. split; [|].
  2:{ unfold FrontendSrc.request, FrontendSrc.getToken, set_location_href.
      cbn. rewrite Hnet. cbn. rewrite (ok_401 _ Hst), Hst. cbn.
      destruct (window (world σ)); cbn; unfold emit, logged; cbn;
        rewrite <- !app_assoc; reflexivity. }
  reflexivity.
Qed.

(** [fetchApi] on a 401: nothing is stored, so nothing is cleared; the
    page navigates only when the call requires authentication and runs
    in a browser. *)
Lemma fetchApi_401 {env : Env} {S : Type} (net : nat -> reply) (σ : Sched S)
    (endpoint : string) (options : Frontend.FetchOptions) (resp : Response) :
  net (length (fetches (log (world σ)))) = inr resp ->
  status resp = 401 ->
  exists e,
    run net (Frontend.fetchApi endpoint options) σ =
    ({| world := logged (EFetch (fetchApi_request endpoint options) ::
                   if default true (Frontend.requireAuth options) && window (world σ)
                   then [ENavigate "/"] else []) (world σ);
        parked := parked σ |}, inl e) /\
    (payload resp <> Some JNull -> exists m, e = ApiError m 401).
Proof.
  intros Hnet Hst. destruct resp as [st pl]. simpl in Hst. subst st.
  unfold Frontend.fetchApi, fetchApi_request. cbn. rewrite Hnet. cbn.
  destruct (default true (Frontend.requireAuth options)); cbn;
  destruct (window (world σ)); cbn;
  destruct pl as [[]|]; cbn;
    (eexists; split;
     [unfold emit, logged; cbn; rewrite <- ?app_assoc; reflexivity
     | eauto; try congruence]).
Qed.

(** Whatever the reply, [fetchApi] sends one request, writes no state
    and touches no cookie; at most it navigates to the root, and never
    when the caller passed [requireAuth: false]. *)
Lemma fetchApi_frame {env : Env} {S : Type} (net : nat -> reply) (σ : Sched S)
    (endpoint : string) (options : Frontend.FetchOptions) :
  exists nav,
    (run net (Frontend.fetchApi endpoint options) σ).1 =
      {| world := logged (EFetch (fetchApi_request endpoint options) :: nav) (world σ);
         parked := parked σ |} /\
    (nav = [] \/ nav = [ENavigate "/"]) /\
    (default true (Frontend.requireAuth options) = false -> nav = []).
Proof.
  unfold Frontend.fetchApi, fetchApi_request. cbn.
  destruct (net _) as [e|[st pl]]; cbn.
  { exists []. auto. }
  unfold ok; cbn.
  destruct ((200 <=? st) && (st <=? 299)); cbn.
  { destruct pl; cbn; exists []; auto. }
  destruct (st =? 401); cbn;
  destruct (default true (Frontend.requireAuth options)); cbn;
  try destruct (window (world σ)); cbn;
  destruct pl as [[]|]; cbn;
  unfold emit, logged; cbn; rewrite <- ?app_assoc; cbn;
  first [ by (exists []; split_and!; [reflexivity|left|])
        | by (exists [ENavigate "/"]; split_and!; [reflexivity|right|]) ].
Qed.

(** A 2xx response with a JSON body is the value [fetchApi] returns;
    anything else makes it throw. *)
Lemma fetchApi_result {env : Env} {S : Type} (net : nat -> reply) (σ : Sched S)
    (endpoint : string) (options : Frontend.FetchOptions) :
  match net (length (fetches (log (world σ)))) with
  | inr {| status := st; payload := Some v |} =>
      if (200 <=? st) && (st <=? 299)
      then (run net (Frontend.fetchApi endpoint options) σ).2 = inr v
      else exists e, (run net (Frontend.fetchApi endpoint options) σ).2 = inl e
  | _ => exists e, (run net (Frontend.fetchApi endpoint options) σ).2 = inl e
  end.
Proof.
  unfold Frontend.fetchApi. cbn.
  destruct (net _) as [e|[st pl]]; cbn; [eauto|].
  unfold ok; cbn.
  destruct ((200 <=? st) && (st <=? 299)); cbn; [destruct pl; cbn; eauto|].
  destruct (st =? 401); cbn;
  destruct (default true (Frontend.requireAuth options)); cbn;
  try destruct (window (world σ)); cbn;
  destruct pl as [[]|]; cbn; eauto.
Qed.

(** C1 (as the code has it): a response with status 401 makes
    [ApiClient.request], whatever the endpoint and options, remove the
    [access_token] cookie; in a browser it then navigates to the root
    exactly once and throws [Error("Unauthorized")], and where there is
    no [window] the navigation itself throws a [ReferenceError] and
    nothing is navigated.  It makes [fetchApi] throw too (an [ApiError]
    with status 401, unless the body is the JSON value [null]), but
    [fetchApi] holds no token to clear, and it navigates to the root,
    once, only when the call requires authentication ([requireAuth],
    true unless the caller says otherwise) and runs in a browser. *)
Theorem unauthorized_response {env : Env} {S : Type} (net : nat -> reply)
    (σ : Sched S) (endpoint : string) (resp : Response) :
  net (length (fetches (log (world σ)))) = inr resp ->
  status resp = 401 ->
  (forall options : RequestInit,
     let out := run net (FrontendSrc.request endpoint options) σ in
     out.2 = inl (if window (world σ) then Error "Error" "Unauthorized"
                  else Error "ReferenceError" "window is not defined") /\
     cookies (world out.1) = delete "access_token" (cookies (world σ)) /\
     navigations (log (world out.1)) =
       navigations (log (world σ)) ++
       (if window (world σ) then ["/"%string] else []) /\
     (exists req, url req = API_BASE_URL +:+ endpoint /\
        log (world out.1) =
        log (world σ) ++ EFetch req :: ECookieRemove "access_token" ::
                         if window (world σ) then [ENavigate "/"] else []))
  /\
  (forall options : Frontend.FetchOptions,
     let out := run net (Frontend.fetchApi endpoint options) σ in
     (exists e, out.2 = inl e /\
        (payload resp <> Some JNull -> exists m, e = ApiError m 401)) /\
     cookies (world out.1) = cookies (world σ) /\
     navigations (log (world out.1)) =
       navigations (log (world σ)) ++
       (if default true (Frontend.requireAuth options) && window (world σ)
        then ["/"%string] else []) /\
     fetches (log (world out.1)) =
       fetches (log (world σ)) ++ [fetchApi_request endpoint options]).
Proof.
  intros Hnet Hst. split; intros options; cbn zeta.
  - destruct (request_401 net σ endpoint options resp Hnet Hst) as (req & Hurl & ->).
    cbn. rewrite navigations_app. split_and!; eauto.
    cbn. by destruct (window (world σ)).
  - destruct (fetchApi_401 net σ endpoint options resp Hnet Hst) as (e & -> & He).
    cbn. rewrite navigations_app, fetches_app. cbn.
    split_and!; eauto;
      destruct (default true (Frontend.requireAuth options) && window (world σ));
      reflexivity.
Qed.

Lemma unauthorized_response_witness :
  let net : nat -> reply := fun _ => not_authenticated in
  let σ := page 0 tt in
  let out := run net (FrontendSrc.getProfile (env := localhost)) σ in
  let out' := run net (Frontend.profileApi_get (env := localhost)) σ in
  navigations (log (world out.1)) = ["/"%string]
  /\ out.2 = inl (Error "Error" "Unauthorized")
  /\ navigations (log (world out'.1)) = ["/"%string].
Proof.
  cbn zeta.
  destruct (unauthorized_response (env := localhost) (fun _ => not_authenticated)
              (page 0 tt) "/api/profile"
              {| status := 401;
                 payload := Some (JObj [("detail", JStr "Not authenticated")]) |}
              eq_refl eq_refl) as [Hclient Hfetch].
  destruct (Hclient no_init) as (Hres & _ & Hnav & _).
  destruct (Hfetch Frontend.no_options) as (_ & _ & Hnav' & _).
  split; [exact Hnav|]. split; [exact Hres|exact Hnav'].
Defined.

(** [authApi.getMe] passes [requireAuth: false]: a 401 on [/auth/me] is
    reported as an [ApiError] and the page does not navigate. *)
Lemma getMe_401_does_not_navigate :
  let out := run (fun _ => not_authenticated)
               (Frontend.authApi_getMe (env := localhost)) (page 0 tt) in
  out.2 = inl (ApiError "Not authenticated" 401)
  /\ navigations (log (world out.1)) = []
  /\ fetches (log (world out.1)) = [getMe_request (env := localhost)].
Proof. vm_compute. auto. Qed.

(** Every operation of [ApiClient] is a [request]: on a 401 in a browser
    each of them removes the token, navigates to the root once and
    throws. *)
Lemma ApiClient_operations_401 {env : Env} {S : Type} (net : nat -> reply)
    (σ : Sched S) (resp : Response) (data : json) (skip limit : Z) (regenerate : bool) :
  net (length (fetches (log (world σ)))) = inr resp ->
  status resp = 401 ->
  window (world σ) = true ->
  Forall (fun op : Prog S json =>
            (run net op σ).2 = inl (Error "Error" "Unauthorized")
            /\ cookies (world (run net op σ).1) !! "access_token" = None
            /\ navigations (log (world (run net op σ).1))
               = navigations (log (world σ)) ++ ["/"%string])
         [FrontendSrc.getMe; FrontendSrc.getProfile; FrontendSrc.createProfile data;
          FrontendSrc.getRuns skip limit; FrontendSrc.syncRuns;
          FrontendSrc.getTrainingPlan; FrontendSrc.generateTrainingPlan regenerate].
Proof.
  intros Hnet Hst Hwin.
  assert (Hreq : forall endpoint options,
            let op := FrontendSrc.request endpoint options in
            (run net op σ).2 = inl (Error "Error" "Unauthorized")
            /\ cookies (world (run net op σ).1) !! "access_token" = None
            /\ navigations (log (world (run net op σ).1))
               = navigations (log (world σ)) ++ ["/"%string]).
  { intros endpoint options. cbn zeta.
    destruct (request_401 net σ endpoint options resp Hnet Hst) as (req & _ & ->).
    rewrite Hwin. cbn. rewrite navigations_app, lookup_delete_eq. auto. }
  repeat constructor; apply Hreq.
Qed.

(** Rendered on the server there is no [window]: a 401 still removes
    the token, but the navigation throws before [Error("Unauthorized")]
    is reached. *)
Example request_401_without_window :
  let σ : Sched unit :=
    {| world := {| cookies := {[ "access_token" := "t0k3n" ]}; window := false;
                   now := 0; state := tt; log := [] |};
       parked := [] |} in
  let out := run (fun _ => not_authenticated)
               (FrontendSrc.getProfile (env := localhost)) σ in
  out.2 = inl (Error "ReferenceError" "window is not defined")
  /\ cookies (world out.1) !! "access_token" = None
  /\ navigations (log (world out.1)) = [].
Proof. vm_compute. auto. Qed.

(** Of the operations built on [fetchApi], all but [authApi.getMe]
    navigate to the root on a 401 in a browser. *)
Lemma fetchApi_operations_401 {env : Env} {S : Type} (net : nat -> reply)
    (σ : Sched S) (resp : Response) (data : json) (limit offset : Z) (regenerate : bool) :
  net (length (fetches (log (world σ)))) = inr resp ->
  status resp = 401 ->
  window (world σ) = true ->
  Forall (fun op : Prog S json =>
            navigations (log (world (run net op σ).1))
            = navigations (log (world σ)) ++ ["/"%string])
         [Frontend.authApi_logout; Frontend.profileApi_get;
          Frontend.profileApi_create data; Frontend.runsApi_getAll limit offset;
          Frontend.runsApi_sync; Frontend.trainingPlanApi_get;
          Frontend.trainingPlanApi_generate regenerate]
  /\ navigations (log (world (run net Frontend.authApi_getMe σ).1))
     = navigations (log (world σ)).
Proof.
  intros Hnet Hst Hwin.
  assert (Hreq : forall endpoint options,
            navigations (log (world (run net (Frontend.fetchApi endpoint options) σ).1))
            = navigations (log (world σ)) ++
              (if default true (Frontend.requireAuth options) then ["/"%string] else [])).
  { intros endpoint options.
    destruct (fetchApi_401 net σ endpoint options resp Hnet Hst) as (e & -> & _).
    cbn. rewrite navigations_app, Hwin, andb_true_r. cbn.
    by destruct (default true (Frontend.requireAuth options)). }
  split.
  - repeat constructor; apply Hreq.
  - unfold Frontend.authApi_getMe. rewrite Hreq. cbn. by rewrite app_nil_r.
Qed.

(* ------------------------------------------------------------------ *)
(** ** The session provider ([useAuth] / [AuthProvider]) *)

Lemma fetchUser_run {env : Env} (net : nat -> reply) (σ : Sched Frontend.AuthState) :
  run net Frontend.fetchUser σ =
  match run net Frontend.authApi_getMe σ with
  | (σ', inr u) =>
      ({| world := perform (SetState (fun _ =>
                     {| Frontend.user := u; Frontend.isLoading := false;
                        Frontend.isAuthenticated := true; Frontend.error := None |}))
                     (world σ');
          parked := parked σ' |}, inr tt)
  | (σ', inl e) =>
      ({| world := perform (SetState (fun _ =>
                     {| Frontend.user := JNull; Frontend.isLoading := false;
                        Frontend.isAuthenticated := false;
                        Frontend.error :=
                          Some (if instanceof_ApiError e then exn_message e
                                else "Failed to fetch user") |}))
                     (world σ');
          parked := parked σ' |}, inr tt)
  end.
Proof.
  unfold Frontend.fetchUser. unmonad. rewrite run_try_catch, run_bind.
  destruct (run net Frontend.authApi_getMe σ) as [σ' [e|u]]; reflexivity.
Qed.

(** C6: a [fetchUser] call whose [getMe] returns the user [u] leaves
    the session exactly [{user: u, isLoading: false, isAuthenticated:
    true, error: null}]; one whose [getMe] throws leaves it exactly
    [{user: null, isLoading: false, isAuthenticated: false, error:
    message}], the message being the [ApiError]'s or ['Failed to fetch
    user'].  Either way the call returns normally after exactly one
    request, [GET /auth/me]: there is no retry. *)
Theorem fetchUser_settles {env : Env} (net : nat -> reply)
    (σ : Sched Frontend.AuthState) :
  let out := run net Frontend.fetchUser σ in
  out.2 = inr tt /\
  state (world out.1) =
    match (run net Frontend.authApi_getMe σ).2 with
    | inr u =>
        {| Frontend.user := u; Frontend.isLoading := false;
           Frontend.isAuthenticated := true; Frontend.error := None |}
    | inl e =>
        {| Frontend.user := JNull; Frontend.isLoading := false;
           Frontend.isAuthenticated := false;
           Frontend.error := Some (if instanceof_ApiError e then exn_message e
                                   else "Failed to fetch user") |}
    end /\
  fetches (log (world out.1)) = fetches (log (world σ)) ++ [getMe_request] /\
  writes (log (world out.1)) = writes (log (world σ)) ++ [state (world out.1)] /\
  parked out.1 = parked σ.
Proof.
  cbn zeta. rewrite fetchUser_run.
  destruct (fetchApi_frame net σ "/auth/me"
              {| Frontend.requireAuth := Some false; Frontend.fetchOptions := no_init |})
    as (nav & Hrun & _ & Hnav).
  specialize (Hnav eq_refl). subst nav.
  fold (@Frontend.authApi_getMe _ Frontend.AuthState) in Hrun.
  destruct (run net Frontend.authApi_getMe σ) as [σ' [e|u]]; simpl in Hrun; subst σ';
    cbn; rewrite !fetches_app, !writes_app; cbn; rewrite ?app_nil_r; auto.
Qed.

Example fetchUser_signed_in :
  state (world (run (fun _ => respond 200 alice)
                  (Frontend.fetchUser (env := localhost))
                  (page 0 Frontend.initialState)).1) = signed_in.
Proof. reflexivity. Qed.

Example fetchUser_signed_out :
  state (world (run (fun _ => not_authenticated)
                  (Frontend.fetchUser (env := localhost))
                  (page 0 Frontend.initialState)).1) = signed_out.
Proof. reflexivity. Qed.

Example fetchUser_offline :
  Frontend.error
    (state (world (run (fun _ => inl (Error "TypeError" "Failed to fetch"))
                     (Frontend.fetchUser (env := localhost))
                     (page 0 Frontend.initialState)).1))
  = Some "Failed to fetch user"%string.
Proof. reflexivity. Qed.

(** *** [logout] *)

Lemma logout_run {env : Env} (net : nat -> reply) (σ : Sched Frontend.AuthState) :
  run net Frontend.logout σ =
  match run net Frontend.authApi_logout σ with
  | (σ', inr _) =>
      ({| world := perform (SetLocationHref "/")
                     (perform (SetState (fun _ => cleared)) (world σ'));
          parked := parked σ' |}, inr tt)
  | (σ', inl e) =>
      ({| world := perform (ConsoleError "Logout failed:" e) (world σ');
          parked := parked σ' |}, inr tt)
  end.
Proof.
  unfold Frontend.logout. unmonad. rewrite run_try_catch, run_bind.
  destruct (run net Frontend.authApi_logout σ) as [σ' [e|u]]; reflexivity.
Qed.

(** C5 (as the code has it): [logout] never surfaces an error.  The
    cookie-token provider makes no backend call: it always removes the
    token, sets the user to [null] and navigates to the root.  The hook
    calls the backend first: when that call succeeds it writes the
    cleared session and navigates to the root; when it fails it only
    logs ['Logout failed:'] with the error, and leaves the session as
    it was. *)
Theorem logout_outcome {env : Env} (net : nat -> reply) :
  (forall σ : Sched FrontendSrc.AuthContext.State,
     let out := run net FrontendSrc.AuthContext.logout σ in
     out.2 = inr tt /\
     cookies (world out.1) = delete "access_token" (cookies (world σ)) /\
     FrontendSrc.AuthContext.user (state (world out.1)) = JNull /\
     log (world out.1) =
       log (world σ) ++ [ECookieRemove "access_token";
                         ESetState (state (world out.1)); ENavigate "/"])
  /\
  (forall σ : Sched Frontend.AuthState,
     let out := run net Frontend.logout σ in
     let api := run net Frontend.authApi_logout σ in
     out.2 = inr tt /\
     match api.2 with
     | inr _ =>
         state (world out.1) = cleared /\
         log (world out.1) =
           log (world api.1) ++ [ESetState cleared; ENavigate "/"]
     | inl e =>
         state (world out.1) = state (world σ) /\
         log (world out.1) =
           log (world api.1) ++ [EConsoleError "Logout failed:" e]
     end).
Proof.
  split.
  - intros σ. unfold FrontendSrc.AuthContext.logout, FrontendSrc.AuthContext.setUser.
    cbn. rewrite <- !app_assoc. auto.
  - intros σ. cbn zeta. rewrite logout_run.
    destruct (fetchApi_frame net σ "/auth/logout" Frontend.POST) as (nav & Hrun & _).
    fold (@Frontend.authApi_logout _ Frontend.AuthState) in Hrun.
    destruct (run net Frontend.authApi_logout σ) as [σ' [e|u]]; simpl in Hrun; subst σ';
      cbn; rewrite <- ?app_assoc; auto.
Qed.

(** The backend answers the logout call with a 500: the hook logs the
    error and that is all; [alice] stays signed in and the page stays
    where it is. *)
Lemma logout_failure_keeps_session :
  let out := run (fun _ => server_error)
               (Frontend.logout (env := localhost)) (page 0 signed_in) in
  out.2 = inr tt
  /\ state (world out.1) = signed_in
  /\ navigations (log (world out.1)) = []
  /\ writes (log (world out.1)) = [].
Proof. vm_compute. auto. Qed.

(** *** [refreshUser] *)

(** C10: in the cookie-token provider, when there is no [access_token]
    cookie, [refreshUser] sets the user to [null] and returns; no
    request is sent. *)
Theorem refreshUser_without_cookie {env : Env} (net : nat -> reply)
    (σ : Sched FrontendSrc.AuthContext.State) :
  cookies (world σ) !! "access_token" = None ->
  let out := run net FrontendSrc.AuthContext.refreshUser σ in
  out.2 = inr tt /\
  FrontendSrc.AuthContext.user (state (world out.1)) = JNull /\
  fetches (log (world out.1)) = fetches (log (world σ)) /\
  log (world out.1) =
    log (world σ) ++
    [ESetState {| FrontendSrc.AuthContext.user := JNull;
                  FrontendSrc.AuthContext.loading :=
                    FrontendSrc.AuthContext.loading (state (world σ)) |}] /\
  parked out.1 = parked σ.
Proof.
  intros Hc. unfold FrontendSrc.AuthContext.refreshUser. cbn. rewrite Hc. cbn.
  rewrite fetches_app. cbn. rewrite app_nil_r. auto.
Qed.

Lemma refreshUser_without_cookie_witness :
  let σ := page 0 {| FrontendSrc.AuthContext.user := alice;
                     FrontendSrc.AuthContext.loading := false |} in
  let out := run (fun _ => respond 200 alice)
               (FrontendSrc.AuthContext.refreshUser (env := localhost)) σ in
  cookies (world σ) !! "access_token" = None
  /\ FrontendSrc.AuthContext.user (state (world out.1)) = JNull
  /\ fetches (log (world out.1)) = [].
Proof.
  cbn zeta. split; [reflexivity|].
  destruct (refreshUser_without_cookie (env := localhost) (fun _ => respond 200 alice)
              (page 0 {| FrontendSrc.AuthContext.user := alice;
                         FrontendSrc.AuthContext.loading := false |}) eq_refl)
    as (_ & Huser & Hfetch & _).
  split; [exact Huser|exact Hfetch].
Defined.

Example refreshUser_with_cookie :
  let σ : Sched FrontendSrc.AuthContext.State :=
    {| world := {| cookies := {[ "access_token" := "t0k3n" ]}; window := true;
                   now := 0; state := FrontendSrc.AuthContext.initialState;
                   log := [] |};
       parked := [] |} in
  let out := run (fun _ => respond 200 alice)
               (FrontendSrc.AuthContext.refreshUser (env := localhost)) σ in
  FrontendSrc.AuthContext.user (state (world out.1)) = alice
  /\ url <$> fetches (log (world out.1)) = ["http://localhost:8000/auth/me"%string].
Proof. vm_compute. auto. Qed.

(** *** [refresh] *)

(** A [fetchUser] call sends [GET /auth/me] and parks; when its reply
    arrives it overwrites the session with the outcome of that reply,
    whatever the session has become in between. *)
Lemma fetchUser_parks {env : Env} (w : World Frontend.AuthState)
    (q : list (Task Frontend.AuthState)) :
  exists t,
    spawn Frontend.fetchUser w q =
      {| world := logged [EFetch getMe_request] w; parked := q ++ [t] |} /\
    awaiting t = getMe_request /\
    forall r w' q',
      spawn (resume t r) w' q' =
      {| world := perform (SetState (fun _ => settled r)) w'; parked := q' |}.
Proof.
  eexists. split; [reflexivity|]. split; [reflexivity|].
  intros r w' q'. unfold settled. cbn.
  destruct r as [e|[st pl]]; cbn; [reflexivity|].
  unfold ok; cbn.
  destruct ((200 <=? st) && (st <=? 299)); cbn.
  { destruct pl; reflexivity. }
  rewrite !andb_false_r. cbn.
  destruct pl as [[]|]; reflexivity.
Qed.

(** C2 (as the code has it): every [refresh()] first sets [isLoading]
    to true, keeping the rest of the session, and only then starts
    [fetchUser], which sends [GET /auth/me] and is parked.  Whenever the
    reply to a parked call arrives, the session becomes the outcome of
    that reply: nothing ties a reply to the latest call, so of several
    overlapping calls the one whose reply arrives last decides the
    session ([settled r] is the session a lone [fetchUser] leaves on the
    reply [r]). *)
Theorem refresh_loading_then_fetch {env : Env} (σ : Sched Frontend.AuthState) :
  exists t,
    call Frontend.refresh σ =
      {| world :=
           logged [ESetState (loading_of (state (world σ))); EFetch getMe_request]
             {| cookies := cookies (world σ); window := window (world σ);
                now := now (world σ); state := loading_of (state (world σ));
                log := log (world σ) |};
         parked := parked σ ++ [t] |} /\
    awaiting t = getMe_request /\
    forall (r : reply) (σ' : Sched Frontend.AuthState) (i : nat),
      parked σ' !! i = Some t ->
      settle i r σ' =
      {| world := perform (SetState (fun _ => settled r)) (world σ');
         parked := delete i (parked σ') |}.
Proof.
  destruct (fetchUser_parks
              (perform (SetState loading_of) (world σ)) (parked σ)) as (t & Hs & Ha & Hr).
  exists t. split_and!; [|done|].
  - unfold call, Frontend.refresh. cbn [mbind Prog_bind bind do_ spawn].
    fold loading_of. rewrite Hs. cbn. unfold logged, emit. cbn.
    rewrite <- app_assoc. reflexivity.
  - intros r σ' i Hi. unfold settle. rewrite Hi. apply Hr.
Qed.

(** Two overlapping [refresh()] calls: the first is answered with a
    401, the second (the most recent) with [alice].  The second reply
    arrives first, the first reply last: both calls have settled,
    [isLoading] is false, and the session is signed out although the
    most recent call fetched [alice]. *)
Lemma refresh_race_stale_session :
  let refresh := Frontend.refresh (env := localhost) in
  let σ2 := call refresh (call refresh (page 0 Frontend.initialState)) in
  let σ := settle 0 not_authenticated (settle 1 (respond 200 alice) σ2) in
  length (parked σ2) = 2%nat
  /\ state (world (settle 1 (respond 200 alice) σ2)) = signed_in
  /\ length (parked σ) = 0%nat
  /\ Frontend.isLoading (state (world σ)) = false
  /\ state (world σ) = signed_out
  /\ settled (env := localhost) (respond 200 alice) = signed_in.
Proof. vm_compute. auto 10. Qed.

(* ------------------------------------------------------------------ *)
(** ** The onboarding forms *)

Lemma spawn_log_extends {S : Type} (p : Prog S unit) :
  forall (w : World S) (q : list (Task S)),
    exists l, log (world (spawn p w q)) = log w ++ l.
Proof.
  revert p. fix IH 1. intros p w q.
  destruct p as [a|e|a k|n k|k|k|req k|c k]; simpl.
  - exists []. by rewrite app_nil_r.
  - eexists. reflexivity.
  - destruct (IH k (perform a w) q) as [l ->].
    destruct a; simpl; rewrite <- app_assoc; eauto.
  - apply IH.
  - apply IH.
  - apply IH.
  - eexists. reflexivity.
  - destruct (IH c w q) as [l Hl].
    destruct (IH k (world (spawn c w q)) (parked (spawn c w q))) as [l' ->].
    rewrite Hl, <- app_assoc. eauto.
Qed.

Lemma run_log_extends {S A : Type} (net : nat -> reply) (p : Prog S A) :
  forall σ : Sched S, exists l, log (world (run net p σ).1) = log (world σ) ++ l.
Proof.
  induction p as [A a|A e|A a k IH|A n k IH|A k IH|A k IH|A req k IH|A c IHc k IHk]; intros σ; simpl.
  - exists []. by rewrite app_nil_r.
  - exists []. by rewrite app_nil_r.
  - destruct (IH {| world := perform a (world σ); parked := parked σ |}) as [l ->].
    destruct a; simpl; rewrite <- app_assoc; eauto.
  - apply IH.
  - apply IH.
  - apply IH.
  - destruct (IH (net (length (fetches (log (world σ)))))
                {| world := emit (EFetch req) (world σ); parked := parked σ |}) as [l ->].
    simpl. rewrite <- app_assoc. eauto.
  - destruct (IHk (spawn c (world σ) (parked σ))) as [l ->].
    destruct (spawn_log_extends c (world σ) (parked σ)) as [l' ->].
    rewrite <- app_assoc. eauto.
Qed.

#[local] Arguments local_midnight : simpl never.
#[local] Arguments setHours0 : simpl never.
#[local] Arguments num_leb : simpl never.
#[local] Arguments FrontendSrc.parseTimeToMinutes : simpl never.
#[local] Arguments parseInt : simpl never.

(** [fetchApi] returns exactly when the reply is a 2xx response with a
    JSON body. *)
Lemma fetchApi_succeeds {env : Env} {S : Type} (net : nat -> reply) (σ : Sched S)
    (endpoint : string) (options : Frontend.FetchOptions) :
  if succeeds (net (length (fetches (log (world σ)))))
  then exists v, (run net (Frontend.fetchApi endpoint options) σ).2 = inr v
  else exists e, (run net (Frontend.fetchApi endpoint options) σ).2 = inl e.
Proof.
  pose proof (fetchApi_result net σ endpoint options) as H.
  unfold succeeds, ok. destruct (net _) as [e|[st [v|]]]; cbn in *.
  - done.
  - destruct ((200 <=? st) && (st <=? 299)); cbn; [eauto | done].
  - by rewrite andb_false_r.
Qed.

Lemma fetches_navigate {S : Type} (nav : list (event S)) :
  nav = [] \/ nav = [ENavigate "/"] ->
  fetches nav = [] /\ pushes nav = [] /\ writes nav = [].
Proof. by intros [-> | ->]. Qed.

(** C4 (as the code has it): the form that takes the goal time as
    [H:MM:SS] rejects a goal time below 120 or above 420 minutes, and a
    race date whose instant [new Date(raceDate)] is not after today's
    local midnight, before anything is sent: no request, no route
    change, an error message, and the submit button released.  The form
    that takes hours and minutes in two fields checks nothing in its
    handler: whenever the race date is a date, its first act on the
    network is to post the profile, with whatever goal time the two
    fields add up to; when that call returns it requests plan
    generation next, and when it fails nothing more is sent, an error
    is shown and the submit button is released. *)
Theorem onboarding_validation {env : Env} (net : nat -> reply) :
  (forall (σ : Sched FrontendSrc.Onboarding.State) (raceDate goalTime : string)
          (level : FitnessLevel),
     num_ltb (FrontendSrc.parseTimeToMinutes goalTime) (Num 120) = true
     \/ num_gtb (FrontendSrc.parseTimeToMinutes goalTime) (Num 420) = true
     \/ num_leb (Date_parse raceDate) (setHours0 (Num (now (world σ)))) = true ->
     let out := run net (FrontendSrc.Onboarding.handleSubmit raceDate goalTime level) σ in
     out.2 = inr tt /\
     fetches (log (world out.1)) = fetches (log (world σ)) /\
     pushes (log (world out.1)) = pushes (log (world σ)) /\
     (FrontendSrc.Onboarding.error (state (world out.1))
        = Some "Goal time should be between 2:00:00 and 7:00:00"%string
      \/ FrontendSrc.Onboarding.error (state (world out.1))
        = Some "Race date must be in the future"%string) /\
     FrontendSrc.Onboarding.loading (state (world out.1)) = false /\
     parked out.1 = parked σ)
  /\
  (forall (σ : Sched Frontend.Onboarding.State)
          (raceDate goalHours goalMinutes : string) (level : FitnessLevel) (d : Z),
     Date_parse raceDate = Num d ->
     let out := run net (Frontend.Onboarding.handleSubmit raceDate goalHours
                           goalMinutes level) σ in
     exists rest,
       fetches (log (world out.1)) =
       fetches (log (world σ)) ++
       fetchApi_request "/api/profile"
         (Frontend.POST_json
            (ProfileCreate (Date_toISOString d)
               (num_add (num_mul (parseInt goalHours) (Num 60)) (parseInt goalMinutes))
               level)) :: rest /\
       if succeeds (net (length (fetches (log (world σ))))) then
         exists rest',
           rest = fetchApi_request "/api/training-plan/generate"
                    (Frontend.POST_json (JObj [("regenerate", JBool false)])) :: rest'
       else
         rest = [] /\
         pushes (log (world out.1)) = pushes (log (world σ)) /\
         is_Some (Frontend.Onboarding.error (state (world out.1))) /\
         Frontend.Onboarding.isSubmitting (state (world out.1)) = false).
Proof.
  split.
  - intros σ raceDate goalTime level Hbad. cbn zeta.
    unfold FrontendSrc.Onboarding.handleSubmit.
    set (g := FrontendSrc.parseTimeToMinutes goalTime) in *.
    destruct (num_ltb g (Num 120) || num_gtb g (Num 420)) eqn:Hg.
    + cbn. rewrite !fetches_app, !pushes_app. cbn. rewrite !app_nil_r. auto 10.
    + apply orb_false_iff in Hg as [Hlt Hgt].
      destruct Hbad as [Hbad|[Hbad|Hbad]]; [congruence..|].
      cbn. rewrite Hbad.
      cbn. rewrite !fetches_app, !pushes_app. cbn. rewrite !app_nil_r. auto 10.
  - intros σ raceDate goalHours goalMinutes level d Hd. cbn zeta.
    unfold Frontend.Onboarding.handleSubmit, Frontend.Onboarding.setError,
      Frontend.Onboarding.setIsSubmitting.
    unmonad. cbn [bind do_ run]. rewrite run_try_catch, Hd.
    cbn [toISOString bind]. rewrite run_bind.
    unfold Frontend.profileApi_create.
    set (data := ProfileCreate _ _ _).
    match goal with
    | |- context [run net (Frontend.fetchApi ?ep ?o) ?s] =>
        pose proof (fetchApi_succeeds net s ep o) as Hres;
        destruct (fetchApi_frame net s ep o) as (nav & Hrun & Hnav%fetches_navigate & _);
        destruct (run net (Frontend.fetchApi ep o) s) as [σ1 r1]
    end.
    cbn -[succeeds] in Hres, Hrun. rewrite !fetches_app in Hres. cbn -[succeeds] in Hres.
    rewrite !app_nil_r in Hres. subst σ1.
    destruct Hnav as (Hnf & Hnp & Hnw).
    destruct (succeeds (net (length (fetches (log (world σ)))))).
    + destruct Hres as [v ->].
      rewrite run_bind. unfold Frontend.trainingPlanApi_generate.
      match goal with
      | |- context [run net (Frontend.fetchApi ?ep ?o) ?s] =>
          destruct (fetchApi_frame net s ep o) as (nav' & Hrun' & Hnav'%fetches_navigate & _);
          destruct (run net (Frontend.fetchApi ep o) s) as [σ2 r2]
      end.
      cbn in Hrun'. subst σ2. destruct Hnav' as (Hnf' & _).
      match goal with
      | |- context [log (world (?R).1)] =>
          assert (Hext : exists l, log (world R.1) = 
             (log (world σ) ++ [ESetState
               {| Frontend.Onboarding.auth := Frontend.Onboarding.auth (state (world σ));
                  Frontend.Onboarding.isSubmitting := Frontend.Onboarding.isSubmitting (state (world σ));
                  Frontend.Onboarding.error := None |};
               ESetState
               {| Frontend.Onboarding.auth := Frontend.Onboarding.auth (state (world σ));
                  Frontend.Onboarding.isSubmitting := true;
                  Frontend.Onboarding.error := None |}] ++
               EFetch (fetchApi_request "/api/profile" (Frontend.POST_json data)) :: nav) ++
               (EFetch (fetchApi_request "/api/training-plan/generate"
                          (Frontend.POST_json (JObj [("regenerate", JBool false)]))) :: nav') ++ l)
      end.
      { destruct r2 as [e|v2].
        - match goal with
          | |- context [run net ?P ?s] => destruct (run_log_extends net P s) as [l ->]
          end.
          exists l. cbn. unfold emit, logged. cbn. rewrite <- !app_assoc. reflexivity.
        - match goal with
          | |- context [match ?R with (_, _) => _ end] => destruct R as [σ3 [e|u]] eqn:HR
          end.
          + match goal with
            | |- context [run net ?P ?s] => destruct (run_log_extends net P s) as [l ->]
            end.
            match type of HR with
            | run net ?P ?s = _ => destruct (run_log_extends net P s) as [l' Hl']
            end.
            rewrite HR in Hl'. cbn in Hl'. rewrite Hl'.
            exists (l' ++ l). cbn. unfold emit, logged. cbn. rewrite <- !app_assoc. reflexivity.
          + match type of HR with
            | run net ?P ?s = _ => destruct (run_log_extends net P s) as [l' Hl']
            end.
            rewrite HR in Hl'. cbn in Hl'. cbn. rewrite Hl'.
            exists l'. cbn. unfold emit, logged. cbn. rewrite <- !app_assoc. reflexivity. }
      destruct Hext as [l ->].
      rewrite !fetches_app. cbn. rewrite Hnf, Hnf'. cbn.
      rewrite <- app_assoc. cbn. eexists. split; [reflexivity|]. eauto.
    + destruct Hres as [e ->]. cbn [fst snd].
      exists []. split; [|split; [reflexivity|]].
      all: destruct (instanceof_ApiError e); cbn;
        rewrite ?fetches_app, ?pushes_app; cbn;
        rewrite ?fetches_app, ?pushes_app, ?Hnf, ?Hnp; cbn; rewrite ?app_nil_r;
        split_and?; eauto.
Qed.

Lemma onboarding_validation_witness :
  let σ := page 1704101400000
             {| FrontendSrc.Onboarding.auth := FrontendSrc.AuthContext.initialState;
                FrontendSrc.Onboarding.loading := false;
                FrontendSrc.Onboarding.error := None |} in
  let out := run (fun _ => respond 200 alice)
               (FrontendSrc.Onboarding.handleSubmit (env := localhost)
                  "2030-06-01" "1:30:00" intermediate) σ in
  FrontendSrc.parseTimeToMinutes "1:30:00" = Num 90
  /\ fetches (log (world out.1)) = []
  /\ pushes (log (world out.1)) = [].
Proof.
  cbn zeta. split; [reflexivity|].
  destruct (onboarding_validation (env := localhost) (fun _ => respond 200 alice))
    as [Hreject _].
  destruct (Hreject
              (page 1704101400000
                 {| FrontendSrc.Onboarding.auth := FrontendSrc.AuthContext.initialState;
                    FrontendSrc.Onboarding.loading := false;
                    FrontendSrc.Onboarding.error := None |})
              "2030-06-01"%string "1:30:00"%string intermediate
              (or_introl eq_refl))
    as (_ & Hfetch & Hpush & _).
  split; [exact Hfetch|exact Hpush].
Defined.

Example handleSubmit_today_rejected :
  let σ := page 1704101400000
             {| FrontendSrc.Onboarding.auth := FrontendSrc.AuthContext.initialState;
                FrontendSrc.Onboarding.loading := false;
                FrontendSrc.Onboarding.error := None |} in
  let out := run (fun _ => respond 200 alice)
               (FrontendSrc.Onboarding.handleSubmit (env := localhost)
                  "2024-01-01" "4:00:00" intermediate) σ in
  fetches (log (world out.1)) = []
  /\ FrontendSrc.Onboarding.error (state (world out.1))
     = Some "Race date must be in the future"%string.
Proof. vm_compute. auto. Qed.

Example handleSubmit_accepted :
  let σ := page 1704101400000
             {| FrontendSrc.Onboarding.auth := FrontendSrc.AuthContext.initialState;
                FrontendSrc.Onboarding.loading := false;
                FrontendSrc.Onboarding.error := None |} in
  let out := run (fun _ => respond 200 alice)
               (FrontendSrc.Onboarding.handleSubmit (env := localhost)
                  "2024-06-01" "4:00:00" intermediate) σ in
  url <$> fetches (log (world out.1)) = ["http://localhost:8000/api/profile"%string]
  /\ pushes (log (world out.1)) = ["/dashboard"%string]
  /\ FrontendSrc.Onboarding.error (state (world out.1)) = None.
Proof. vm_compute. auto. Qed.

(** Eight hours (480 minutes, which the hours field, capped at 8, lets
    through) in the form with two fields: the profile is posted with
    [goal_time_minutes: 480], the plan is generated and the page moves
    on to the dashboard. *)
Lemma handleSubmit_posts_480_minutes :
  let σ := page 1704101400000
             {| Frontend.Onboarding.auth := signed_in;
                Frontend.Onboarding.isSubmitting := false;
                Frontend.Onboarding.error := None |} in
  let out := run (fun _ => respond 200 (JObj []))
               (Frontend.Onboarding.handleSubmit (env := localhost)
                  "2024-06-01" "8" "0" intermediate) σ in
  (body ∘ init) <$> head (fetches (log (world out.1)))
    = Some (Some (ProfileCreate "2024-06-01T00:00:00.000Z" (Num 480) intermediate))
  /\ url <$> fetches (log (world out.1))
     = ["http://localhost:8000/api/profile"%string;
        "http://localhost:8000/api/training-plan/generate"%string;
        "http://localhost:8000/auth/me"%string]
  /\ pushes (log (world out.1)) = ["/dashboard"%string]
  /\ Frontend.Onboarding.error (state (world out.1)) = None.
Proof. vm_compute. auto. Qed.

(* ------------------------------------------------------------------ *)
(** ** The route guard *)

(** What holds of any guard that never shows its children to a denied
    session and whose effect pushes the root route once the session has
    stopped loading. *)
Section GuardTrajectory.
Context {P L : Type}.
Variable same_deps : P -> P -> bool.
Variable render : P -> L -> view.
Variable effect : P -> Prog L unit.
Variable loading : P -> bool.
Variable denied : P -> Prop.

Hypothesis same_deps_loading :
  forall q p, same_deps q p = true -> loading q = loading p.
Hypothesis render_denied :
  forall p l, denied p -> render p l <> Children.
Hypothesis effect_denied :
  forall p w, denied p ->
    pushes (log (world (spawn (effect p) w []))) =
    pushes (log w) ++ (if loading p then [] else ["/"%string]).

Lemma commit_denied (p : P) (m : Mounted P L) :
  denied p ->
  (Children ∉ frames m) ->
  Forall (eq "/"%string) (pushes (log (local m))) ->
  redirected loading m ->
  let m' := commit same_deps render effect p m in
  (Children ∉ frames m') /\
  Forall (eq "/"%string) (pushes (log (local m'))) /\
  redirected loading m' /\
  (loading p = false -> "/"%string ∈ pushes (log (local m'))) /\
  ("/"%string ∈ pushes (log (local m)) -> "/"%string ∈ pushes (log (local m'))).
Proof.
  intros Hp Hfr Hall Hred. cbn zeta. unfold commit.
  assert (Hpush : loading p = false -> deps_changed same_deps p m = false ->
                  "/"%string ∈ pushes (log (local m))).
  { unfold deps_changed. intros Hl Hd. destruct (last m) as [q|] eqn:Hq; [|done].
    apply negb_false_iff in Hd. apply (Hred q); [done|].
    by rewrite (same_deps_loading _ _ Hd). }
  destruct (deps_changed same_deps p m) eqn:Hd; cbn [local last frames].
  - pose proof (effect_denied p (local m) Hp) as He.
    split_and!.
    + rewrite not_elem_of_app. split; [done|].
      destruct (_ <? _)%nat; rewrite ?not_elem_of_cons; split_and?;
        try (intros Heq; symmetry in Heq; revert Heq); try apply render_denied;
        try done; apply not_elem_of_nil.
    + rewrite He. apply Forall_app. split; [done|]. destruct (loading p); auto.
    + intros q [= <-] Hl. cbn. rewrite He, Hl. set_solver.
    + intros Hl. rewrite He, Hl. set_solver.
    + intros Hm. rewrite He. set_solver.
  - split_and!; auto.
    + rewrite not_elem_of_app, not_elem_of_cons. split_and!; [done| |apply not_elem_of_nil].
      intros Heq. symmetry in Heq. by apply render_denied in Heq.
    + intros q [= <-] Hl. auto.
Qed.

Lemma drive_denied (ps : list P) : forall m : Mounted P L,
  Forall denied ps ->
  (Children ∉ frames m) ->
  Forall (eq "/"%string) (pushes (log (local m))) ->
  redirected loading m ->
  let m' := drive same_deps render effect ps m in
  (Children ∉ frames m') /\
  Forall (eq "/"%string) (pushes (log (local m'))) /\
  redirected loading m' /\
  ("/"%string ∈ pushes (log (local m)) \/ Exists (fun p => loading p = false) ps ->
   "/"%string ∈ pushes (log (local m'))).
Proof.
  induction ps as [|p ps IH]; intros m Hps Hfr Hall Hred; cbn zeta.
  - cbn. split_and!; auto. intros [?|Hex]; [done|]. by apply Exists_nil in Hex.
  - apply Forall_cons in Hps as [Hp Hps].
    destruct (commit_denied p m Hp Hfr Hall Hred) as (H1 & H2 & H3 & H4 & H5).
    destruct (IH _ Hps H1 H2 H3) as (I1 & I2 & I3 & I4).
    unfold drive in *. cbn [foldl]. split_and!; auto.
    intros [Hm|Hex]; apply I4.
    + left. auto.
    + apply Exists_cons in Hex as [Hl|Hex]; [left; auto|right; done].
Qed.

End GuardTrajectory.

Lemma mounted_redirected {P L : Type} (loading : P -> bool) (l : L) :
  redirected loading (mounted (P := P) l).
Proof. intros q Hq. discriminate. Qed.

(** A guard that keeps no state of its own: denied props render the
    spinner while loading and nothing afterwards, and the effect does
    nothing while loading and pushes the root route afterwards. *)
Section StatelessGuard.
Context {P L : Type}.
Variable same_deps : P -> P -> bool.
Variable render : P -> L -> view.
Variable effect : P -> Prog L unit.
Variable loading : P -> bool.
Variable denied : P -> Prop.

Hypothesis same_deps_loading :
  forall q p, same_deps q p = true -> loading q = loading p.
Hypothesis render_exact :
  forall p l, denied p -> render p l = if loading p then Spinner else Nothing.
Hypothesis effect_log :
  forall p w, denied p ->
    log (world (spawn (effect p) w [])) =
    log w ++ (if loading p then [] else [EPush "/"]).

Lemma drive_frames (ps : list P) : forall m : Mounted P L,
  Forall denied ps ->
  frames (drive same_deps render effect ps m) =
  frames m ++ ((fun p => if loading p then Spinner else Nothing) <$> ps).
Proof.
  induction ps as [|p ps IH]; intros m Hps.
  - cbn. by rewrite app_nil_r.
  - apply Forall_cons in Hps as [Hp Hps]. unfold drive in *. cbn [foldl].
    rewrite (IH _ Hps). unfold commit.
    destruct (deps_changed same_deps p m); cbn [frames].
    + rewrite (effect_log p (local m) Hp), writes_app.
      replace (writes (if loading p then [] else [EPush "/"])) with (@nil L)
        by (by destruct (loading p)).
      rewrite app_nil_r, Nat.ltb_irrefl, (render_exact _ _ Hp).
      rewrite <- app_assoc. reflexivity.
    + rewrite (render_exact _ _ Hp), <- app_assoc. reflexivity.
Qed.

Lemma stateless_guard (ps : list P) (l : L) :
  Forall denied ps ->
  let m := drive same_deps render effect ps (mounted l) in
  (Children ∉ frames m) /\
  frames m = (fun p => if loading p then Spinner else Nothing) <$> ps /\
  Forall (eq "/"%string) (pushes (log (local m))) /\
  (Exists (fun p => loading p = false) ps -> "/"%string ∈ pushes (log (local m))).
Proof.
  intros Hps. cbn zeta.
  destruct (drive_denied same_deps render effect loading denied same_deps_loading)
    with (ps := ps) (m := mounted (P := P) l) as (H1 & H2 & _ & H4); auto.
  - intros p l' Hp. rewrite (render_exact p l' Hp). by destruct (loading p).
  - intros p w Hp. rewrite (effect_log p w Hp), pushes_app. by destruct (loading p).
  - apply not_elem_of_nil.
  - apply mounted_redirected.
  - split_and!; auto. by rewrite drive_frames.
Qed.

End StatelessGuard.

(** C7: along every sequence of sessions none of which is
    authenticated, the guard never renders its children; it renders the
    spinner for a loading session and nothing for a resolved one, the
    only route it pushes is the root, and it has pushed it as soon as
    one of the sessions is no longer loading.  This holds for the guard
    over the [useAuth] session and for the guard over the cookie-token
    context, whatever React makes of object identity in the dependency
    list. *)
Theorem guard_never_renders_children :
  (forall (same_deps : Frontend.AuthState -> Frontend.AuthState -> bool)
          (requireProfile : bool) (ps : list Frontend.AuthState),
     (forall q p, same_deps q p = true -> Frontend.isLoading q = Frontend.isLoading p) ->
     Forall (fun s => Frontend.isAuthenticated s = false) ps ->
     let m := drive same_deps (Frontend.ProtectedRoute requireProfile)
                (Frontend.ProtectedRoute_effect requireProfile) ps (mounted tt) in
     (Children ∉ frames m) /\
     frames m = (fun s => if Frontend.isLoading s then Spinner else Nothing) <$> ps /\
     Forall (eq "/"%string) (pushes (log (local m))) /\
     (Exists (fun s => Frontend.isLoading s = false) ps ->
      "/"%string ∈ pushes (log (local m))))
  /\
  (forall (same_deps : FrontendSrc.AuthContext.State -> FrontendSrc.AuthContext.State -> bool)
          (requireProfile : bool) (ps : list FrontendSrc.AuthContext.State),
     (forall q p, same_deps q p = true ->
                  FrontendSrc.AuthContext.loading q = FrontendSrc.AuthContext.loading p) ->
     Forall (fun s => truthy (Some (FrontendSrc.AuthContext.user s)) = false) ps ->
     let m := drive same_deps (FrontendSrc.ProtectedRoute requireProfile)
                (FrontendSrc.ProtectedRoute_effect requireProfile) ps (mounted tt) in
     (Children ∉ frames m) /\
     frames m = (fun s => if FrontendSrc.AuthContext.loading s then Spinner else Nothing) <$> ps /\
     Forall (eq "/"%string) (pushes (log (local m))) /\
     (Exists (fun s => FrontendSrc.AuthContext.loading s = false) ps ->
      "/"%string ∈ pushes (log (local m)))).
Proof.
  split; intros same_deps rp ps Hsame Hps.
  - apply (stateless_guard same_deps _ _ Frontend.isLoading
             (fun s => Frontend.isAuthenticated s = false)); auto.
    + intros p l Hp. unfold Frontend.ProtectedRoute. rewrite Hp.
      by destruct (Frontend.isLoading p).
    + intros p w Hp. unfold Frontend.ProtectedRoute_effect. rewrite Hp.
      destruct (Frontend.isLoading p); cbn; by rewrite ?app_nil_r.
  - apply (stateless_guard same_deps _ _ FrontendSrc.AuthContext.loading
             (fun s => truthy (Some (FrontendSrc.AuthContext.user s)) = false)); auto.
    + intros p l Hp. unfold FrontendSrc.ProtectedRoute. rewrite Hp.
      by destruct (FrontendSrc.AuthContext.loading p).
    + intros p w Hp. unfold FrontendSrc.ProtectedRoute_effect. rewrite Hp.
      destruct (FrontendSrc.AuthContext.loading p); cbn; by rewrite ?app_nil_r.
Qed.

(** The later revision of the hook tree's guard keeps an [isRedirecting]
    flag; it never shows the children to a signed-out session either. *)
Lemma guard_with_flag_never_renders_children
    (same_deps : Frontend.AuthState -> Frontend.AuthState -> bool)
    (requireProfile : bool) (ps : list Frontend.AuthState) :
  (forall q p, same_deps q p = true -> Frontend.isLoading q = Frontend.isLoading p) ->
  Forall (fun s => Frontend.isAuthenticated s = false) ps ->
  let m := drive same_deps (Frontend.ProtectedRoute2 requireProfile)
             (Frontend.ProtectedRoute2_effect requireProfile) ps (mounted false) in
  (Children ∉ frames m) /\
  Forall (eq "/"%string) (pushes (log (local m))) /\
  (Exists (fun s => Frontend.isLoading s = false) ps ->
   "/"%string ∈ pushes (log (local m))).
Proof.
  intros Hsame Hps. cbn zeta.
  destruct (drive_denied same_deps (Frontend.ProtectedRoute2 requireProfile)
              (Frontend.ProtectedRoute2_effect requireProfile) Frontend.isLoading
              (fun s => Frontend.isAuthenticated s = false) Hsame)
    with (ps := ps) (m := mounted (P := Frontend.AuthState) false)
    as (H1 & H2 & _ & H4); auto.
  - intros p l Hp. unfold Frontend.ProtectedRoute2. rewrite Hp.
    by rewrite orb_true_r.
  - intros p w Hp. unfold Frontend.ProtectedRoute2_effect. rewrite Hp.
    destruct (Frontend.isLoading p); cbn; rewrite ?pushes_app; cbn;
      by rewrite ?app_nil_r.
  - apply not_elem_of_nil.
  - apply mounted_redirected.
Qed.

Lemma guard_never_renders_children_witness :
  let m := drive same_deps_hook (Frontend.ProtectedRoute true)
             (Frontend.ProtectedRoute_effect true)
             [Frontend.initialState; signed_out] (mounted tt) in
  Forall (fun s => Frontend.isAuthenticated s = false)
         [Frontend.initialState; signed_out]
  /\ frames m = [Spinner; Nothing]
  /\ "/"%string ∈ pushes (log (local m)).
Proof.
  cbn zeta.
  assert (Hps : Forall (fun s => Frontend.isAuthenticated s = false)
                       [Frontend.initialState; signed_out]).
  { repeat constructor. }
  split; [exact Hps|].
  destruct guard_never_renders_children as [Hhook _].
  destruct (Hhook same_deps_hook true [Frontend.initialState; signed_out])
    as (_ & Hframes & _ & Hpush).
  - intros q p Hqp. unfold same_deps_hook in Hqp.
    destruct (Frontend.isLoading q), (Frontend.isLoading p);
      first [reflexivity | discriminate Hqp].
  - exact Hps.
  - split; [exact Hframes|]. apply Hpush. right. left. reflexivity.
Defined.

Example guard_lets_alice_in :
  frames (drive same_deps_hook (Frontend.ProtectedRoute true)
            (Frontend.ProtectedRoute_effect true)
            [Frontend.initialState; signed_in] (mounted tt))
  = [Spinner; Children].
Proof. reflexivity. Qed.

Example guard_sends_bob_to_onboarding :
  let m := drive same_deps_context (FrontendSrc.ProtectedRoute true)
             (FrontendSrc.ProtectedRoute_effect true)
             [FrontendSrc.AuthContext.initialState;
              {| FrontendSrc.AuthContext.user := bob;
                 FrontendSrc.AuthContext.loading := false |}] (mounted tt) in
  frames m = [Spinner; Nothing] /\ pushes (log (local m)) = ["/onboarding"%string].
Proof. vm_compute. auto. Qed.

(* ------------------------------------------------------------------ *)
(** ** The current week *)

Lemma find_first {A : Type} (f : A -> bool) (l : list A) (x : A) :
  find f l = Some x ->
  exists i, l !! i = Some x /\ f x = true /\
            forall j y, (j < i)%nat -> l !! j = Some y -> f y = false.
Proof.
  induction l as [|a l IH]; simpl; [done|].
  destruct (f a) eqn:Hfa.
  - intros [= <-]. exists 0%nat. split_and!; auto. intros j y Hj. lia.
  - intros (i & Hi & Hx & Hlt)%IH. exists (Datatypes.S i). split_and!; auto.
    intros [|j] y Hj; simpl; [by intros [= <-]|]. apply Hlt. lia.
Qed.

Lemma find_none_all {A : Type} (f : A -> bool) (l : list A) :
  find f l = None -> forall x, x ∈ l -> f x = false.
Proof. intros Hn x Hx. apply (find_none f l Hn). by apply list_elem_of_In. Qed.

Lemma find_only {A : Type} (f : A -> bool) (l : list A) (i : nat) (x : A) :
  l !! i = Some x -> f x = true ->
  (forall j y, j <> i -> l !! j = Some y -> f y = false) ->
  find f l = Some x.
Proof.
  revert i. induction l as [|a l IH]; intros [|i]; simpl; try done.
  - intros [= ->] -> _. done.
  - intros Hi Hx Hothers. rewrite (Hothers 0%nat a) by done.
    apply (IH i); auto. intros j y Hj. apply (Hothers (Datatypes.S j)). lia.
Qed.

(** A week's window is not empty: local time is less than a day away
    from UTC. *)
Lemma week_window_nonempty {env : Env} (w : FrontendSrc.WeekPlan) (s e : Z) :
  week_window w = Some (s, e) -> s < e.
Proof.
  unfold week_window, addDays, TimeClip, UTC, LocalTime.
  destruct (Date_parse (FrontendSrc.start_date w)) as [| |s0|]; try done.
  destruct (_ <=? _); [|done]. intros [= <- <-].
  pose proof (LocalTZA_range s0 true) as H1.
  pose proof (LocalTZA_range (s0 + LocalTZA s0 true + 7 * MS_PER_DAY) false) as H2.
  unfold MS_PER_DAY in *. lia.
Qed.

Lemma addDays_cases {env : Env} (n : Z) (d : number) :
  addDays n d = NaN \/ exists e, addDays n d = Num e.
Proof.
  unfold addDays, TimeClip. destruct d; auto. destruct (_ <=? _); eauto.
Qed.

(** The test of [getCurrentWeek] and [isCurrentWeek] is membership in
    the week's window. *)
Lemma in_week_window {env : Env} (t : Z) (w : FrontendSrc.WeekPlan) :
  FrontendSrc.in_week (Num t) w = true <-> in_window t w.
Proof.
  unfold FrontendSrc.in_week, in_window, week_window, num_geb.
  destruct (Date_parse (FrontendSrc.start_date w)) as [|sg|s|m e].
  - split; [done|]. by intros (s & e & ? & _).
  - replace (addDays 7 (Infinity sg)) with NaN by reflexivity.
    rewrite andb_false_r. split; [done|]. by intros (s & e & ? & _).
  - destruct (addDays_cases 7 (Num s)) as [->|[e ->]].
    + rewrite andb_false_r. split; [done|]. by intros (s' & e' & ? & _).
    + rewrite num_leb_Num, num_ltb_Num, andb_true_iff, Z.leb_le, Z.ltb_lt. split.
      * intros [? ?]. exists s, e. split; [done|lia].
      * intros (s' & e' & [= <- <-] & ?). lia.
  - replace (addDays 7 (Frac m e)) with NaN by reflexivity.
    rewrite andb_false_r. split; [done|]. by intros (s & e' & ? & _).
Qed.

Lemma in_week_not_window {env : Env} (t : Z) (w : FrontendSrc.WeekPlan) :
  FrontendSrc.in_week (Num t) w = false <-> ~ in_window t w.
Proof. rewrite <- in_week_window. by destruct (FrontendSrc.in_week _ _). Qed.

(** The test of [fetchData] is membership in the closed interval of the
    week's own dates. *)
Lemma isWithinInterval_interval {env : Env} (t : Z)
    (w : Frontend.Dashboard.TrainingWeek) :
  Frontend.Dashboard.isWithinInterval (Num t)
    (parseISO (Frontend.Dashboard.start_date w))
    (parseISO (Frontend.Dashboard.end_date w)) = true
  <-> in_interval t w.
Proof.
  unfold Frontend.Dashboard.isWithinInterval, in_interval, num_geb.
  destruct (parseISO (Frontend.Dashboard.start_date w)) as [|sa|a|ma ea];
    destruct (parseISO (Frontend.Dashboard.end_date w)) as [|sb|b|mb eb];
    try (split; [done|]; by intros (a' & b' & ? & ? & _)).
  rewrite !num_leb_Num, andb_true_iff, !Z.leb_le. split.
  - intros [? ?]. exists a, b. auto.
  - intros (a' & b' & [= <-] & [= <-] & ?). lia.
Qed.

Lemma isWithinInterval_not_interval {env : Env} (t : Z)
    (w : Frontend.Dashboard.TrainingWeek) :
  Frontend.Dashboard.isWithinInterval (Num t)
    (parseISO (Frontend.Dashboard.start_date w))
    (parseISO (Frontend.Dashboard.end_date w)) = false
  <-> ~ in_interval t w.
Proof.
  rewrite <- isWithinInterval_interval.
  by destruct (Frontend.Dashboard.isWithinInterval _ _ _).
Qed.









(** The last week of a longer plan is followed by the first: seven days
    after the start of the second of two weeks the dashboard is back at
    week one. *)
Example getCurrentWeek_after_last_week :
  FrontendSrc.getCurrentWeek (env := localhost) 1705311000000 two_weeks = Some week1.
Proof. vm_compute. reflexivity. Qed.

(** [new Date("2024-01-08")] is midnight UTC, today's midnight is local:
    one hour east of UTC, on Monday 8 January at noon, today's midnight
    is 7 January 23:00 UTC, before the week that starts that Monday, and
    the dashboard shows the week before. *)
Example getCurrentWeek_east_of_UTC :
  let noon := 1704711600000 in
  setHours0 (env := utc_plus_1) (Num noon) = Num 1704668400000
  /\ week_window (env := utc_plus_1) week2 = Some (1704672000000, 1705276800000)
  /\ FrontendSrc.getCurrentWeek (env := utc_plus_1) noon two_weeks = Some week1.
Proof. vm_compute. auto. Qed.

(** Seven days of the calendar are not always seven times 24 hours: in
    London the week that starts on 21 October 2024 ends at 01:00 on the
    28th, the clocks having gone back on the 27th, so at midnight on
    the 28th the dashboard still shows the week of the 21st. *)
Example getCurrentWeek_clock_change :
  let morning := 1730106000000 in
  week_window (env := london) oct21 = Some (1729468800000, 1730077200000)
  /\ week_window (env := london) oct28 = Some (1730073600000, 1730678400000)
  /\ setHours0 (env := london) (Num morning) = Num 1730073600000
  /\ FrontendSrc.getCurrentWeek (env := london) morning autumn_weeks = Some oct21.
Proof. vm_compute. auto. Qed.

(** The plan page marks the same weeks: with week numbers that tell the
    weeks apart, [isCurrentWeek] holds of a week when today's midnight
    is the instant it starts, and no longer at the instant its window
    ends. *)
Lemma isCurrentWeek_boundaries {env : Env} (now_ : Z)
    (plan : option FrontendSrc.TrainingPlan)
    (ws : list FrontendSrc.WeekPlan) (w : FrontendSrc.WeekPlan) (s e m : Z) :
  FrontendSrc.plan_weeks plan = Some ws ->
  (forall w', w' ∈ ws -> FrontendSrc.week_number w' = FrontendSrc.week_number w -> w' = w) ->
  w ∈ ws ->
  week_window w = Some (s, e) ->
  setHours0 (Num now_) = Num m ->
  (m = s ->
   FrontendSrc.isCurrentWeek now_ plan (FrontendSrc.week_number w) = true) /\
  (m = e ->
   FrontendSrc.isCurrentWeek now_ plan (FrontendSrc.week_number w) = false).
Proof.
  intros Hws Huniq Hw Hww Hm. unfold FrontendSrc.isCurrentWeek. rewrite Hws.
  pose proof (week_window_nonempty w s e Hww) as Hse.
  destruct (find _ ws) as [w'|] eqn:Hf.
  - apply find_some in Hf as [Hin Heq]. apply Z.eqb_eq in Heq.
    apply list_elem_of_In in Hin. rewrite (Huniq w' Hin Heq), Hm.
    split; intros ->.
    + apply in_week_window. exists s, e. split; [done|lia].
    + apply in_week_not_window. intros (s' & e' & Hs' & Hin').
      rewrite Hww in Hs'. injection Hs' as <- <-. lia.
  - pose proof (find_none_all _ _ Hf w Hw) as Hn. simpl in Hn.
    rewrite Z.eqb_refl in Hn. done.
Qed.

(** [getCurrentWeek]: the first week whose window holds today's
    midnight, else the first week, else [null]. *)
Lemma getCurrentWeek_scan {env : Env} (now_ : Z) (plan : option FrontendSrc.TrainingPlan)
    (m : Z) :
  setHours0 (Num now_) = Num m ->
  match FrontendSrc.plan_weeks plan with
  | None => FrontendSrc.getCurrentWeek now_ plan = None
  | Some ws =>
      match FrontendSrc.getCurrentWeek now_ plan with
      | Some w =>
          (exists i, ws !! i = Some w /\ in_window m w /\
                     forall j w', (j < i)%nat -> ws !! j = Some w' -> ~ in_window m w')
          \/ ((forall w', w' ∈ ws -> ~ in_window m w') /\ head ws = Some w)
      | None => ws = []
      end
  end.
Proof.
  intros Hm. unfold FrontendSrc.getCurrentWeek.
  destruct (FrontendSrc.plan_weeks plan) as [ws|]; [|done].
  rewrite Hm. destruct (find _ ws) as [w|] eqn:Hf.
  - left. apply find_first in Hf as (i & Hi & Hw & Hlt). exists i. split_and!; auto.
    + by apply in_week_window.
    + intros j w' Hj Hw'. apply in_week_not_window. eauto.
  - pose proof (find_none_all _ _ Hf) as Hall.
    destruct ws as [|w0 ws]; [done|]. right. split; [|done].
    intros w' Hw'. apply in_week_not_window. auto.
Qed.

(** [fetchData]: the first week whose closed interval holds the current
    instant, else the first week, else [undefined]. *)
Lemma fetchData_scan {env : Env} (now_ : Z)
    (ws : list Frontend.Dashboard.TrainingWeek) :
  match Frontend.Dashboard.fetchData_currentWeek now_ ws with
  | Some w =>
      (exists i, ws !! i = Some w /\ in_interval now_ w /\
                 forall j w', (j < i)%nat -> ws !! j = Some w' -> ~ in_interval now_ w')
      \/ ((forall w', w' ∈ ws -> ~ in_interval now_ w') /\ head ws = Some w)
  | None => ws = []
  end.
Proof.
  unfold Frontend.Dashboard.fetchData_currentWeek. cbn zeta.
  destruct (find _ ws) as [w|] eqn:Hf.
  - left. apply find_first in Hf as (i & Hi & Hw & Hlt). exists i. split_and!; auto.
    + by apply isWithinInterval_interval.
    + intros j w' Hj Hw'. apply isWithinInterval_not_interval.
      apply (Hlt j w' Hj Hw').
  - pose proof (find_none_all _ _ Hf) as Hall.
    destruct ws as [|w0 ws]; [done|]. right. split; [|done].
    intros w' Hw'. apply isWithinInterval_not_interval. apply (Hall w' Hw').
Qed.

(** C8, where the code departs from it.  Sunday 14 January 2024 at
    noon, the last day of the second week: the instant lies in the seven
    days that start on 8 January, but after the midnight that begins the
    week's [end_date], so the [fetchData] dashboard finds no week and
    falls back to the first; [getCurrentWeek] on the same plan returns
    the second. *)
Lemma fetchData_last_day_falls_back :
  let noon := 1705233600000 in
  parseISO (Env := localhost) (Frontend.Dashboard.start_date mon_sun_2)
    = Num 1704672000000
  /\ 1704672000000 <= noon < 1704672000000 + 7 * MS_PER_DAY
  /\ Frontend.Dashboard.fetchData_currentWeek (env := localhost) noon
       [mon_sun_1; mon_sun_2] = Some mon_sun_1
  /\ FrontendSrc.getCurrentWeek (env := localhost) noon two_weeks = Some week2.
Proof.
  cbn zeta. split_and!; [vm_compute; reflexivity | done | done | vm_compute; reflexivity..].
Qed.

(** On every day of a week but the last, the [fetchData] dashboard does
    find the week: where the weeks' own intervals are disjoint, at the
    instant a week starts it returns that week, and at the instant the
    next one starts it returns the next one. *)
Lemma fetchData_boundaries {env : Env} (now_ : Z)
    (ws : list Frontend.Dashboard.TrainingWeek) (i : nat)
    (w : Frontend.Dashboard.TrainingWeek) (a b : Z) :
  disjoint_intervals ws ->
  ws !! i = Some w ->
  parseISO (Frontend.Dashboard.start_date w) = Num a ->
  parseISO (Frontend.Dashboard.end_date w) = Num b ->
  a <= b ->
  (now_ = a -> Frontend.Dashboard.fetchData_currentWeek now_ ws = Some w) /\
  (b < now_ ->
   forall j w' b', ws !! j = Some w' ->
     parseISO (Frontend.Dashboard.start_date w') = Num now_ ->
     parseISO (Frontend.Dashboard.end_date w') = Num b' ->
     now_ <= b' ->
     Frontend.Dashboard.fetchData_currentWeek now_ ws = Some w' /\ w' <> w).
Proof.
  intros [Hwf Hdis] Hi Ha Hb Hab.
  assert (Honly : forall k wk ak bk,
            ws !! k = Some wk ->
            parseISO (Frontend.Dashboard.start_date wk) = Num ak ->
            parseISO (Frontend.Dashboard.end_date wk) = Num bk ->
            ak <= now_ <= bk ->
            Frontend.Dashboard.fetchData_currentWeek now_ ws = Some wk).
  { intros k wk ak bk Hk Hak Hbk Hin.
    unfold Frontend.Dashboard.fetchData_currentWeek. cbn zeta.
    rewrite (find_only _ ws k wk); auto.
    - apply isWithinInterval_interval. exists ak, bk. split_and!; auto; lia.
    - intros j y Hj Hy. apply isWithinInterval_not_interval.
      intros (ay & by_ & Hay & Hby & Hiny).
      assert (ay <= by_) by (apply (Hwf y); [by eapply list_elem_of_lookup_2|done..]).
      destruct (Hdis j k y wk ay by_ ak bk Hj Hy Hk Hay Hby Hak Hbk); lia. }
  split.
  - intros ->. apply (Honly i w a b); auto. lia.
  - intros Hlt j w' b' Hj Ha' Hb' Hle. split.
    + apply (Honly j w' now_ b'); auto. lia.
    + intros ->. rewrite Ha in Ha'. injection Ha'. lia.
Qed.
